(** * seismiqb: the cube-conversion notebook [datasets/01_Convert_cubes.ipynb]

    A shallow embedding of the two code cells of the notebook that do work:
    the cell that discovers the cubes and fixes the run configuration, and
    the cell that loops over the cubes and converts them.

    The notebook calls three kinds of things that live outside of it:
    - Python's [os.path] ([exists], [splitext]), [glob], [sorted] and [print];
    - the [SeismicGeometry] class of the [seismiqb] package and [plt.show];
    - [tqdm], which wraps the list of paths and hands its items over one by
      one, in order; its progress bar is not part of the model.

    [os.path.splitext] and [sorted] are pure and are written out here,
    [splitext] after [genericpath._splitext] of CPython with the separators
    of [posixpath].  Everything that reads or changes the machine (the
    filesystem, the objects of the library) is a field of the record
    [External], a parameter of the development. *)

From Stdlib Require Import String Ascii List ZArith Bool Lia.
From Stdlib Require Import Sorting.Sorted Sorting.Permutation.
Import ListNotations.

Open Scope string_scope.
Open Scope Z_scope.

(** ** Strings the way Python indexes them *)

Module PyStr.

(** [p.rfind(c)] for a one-character [c]: the highest index at which [c]
    occurs in [p], and [-1] when it does not occur. *)
Fixpoint rfind (c : ascii) (p : string) : Z :=
  match p with
  | EmptyString => -1
  | String a p' =>
      let r := rfind c p' in
      if 0 <=? r then r + 1
      else if Ascii.eqb a c then 0 else -1
  end.

Fixpoint take (n : nat) (p : string) : string :=
  match n, p with
  | S n', String a p' => String a (take n' p')
  | _, _ => EmptyString
  end.

Fixpoint drop (n : nat) (p : string) : string :=
  match n, p with
  | S n', String _ p' => drop n' p'
  | _, _ => p
  end.

(** [p[:i]], [p[i:]] and [p[i:i+1]] for an index [0 <= i]. *)
Definition slice_to (p : string) (i : Z) : string := take (Z.to_nat i) p.
Definition slice_from (p : string) (i : Z) : string := drop (Z.to_nat i) p.
Definition slice1 (p : string) (i : Z) : string := take 1 (slice_from p i).

(** [s * n] *)
Fixpoint mul (s : string) (n : nat) : string :=
  match n with
  | O => EmptyString
  | S n' => s ++ mul s n'
  end.

(** The line feed, Python's ['\n']. *)
Definition nl : string := String (ascii_of_nat 10) EmptyString.

End PyStr.

(** ** [os.path.splitext] (posixpath) *)

Module OsPath.
Import PyStr.

Definition sep : ascii := "/"%char.
Definition extsep : ascii := "."%char.

(** The [while filenameIndex < dotIndex] loop of [genericpath._splitext]:
    [n] is the number of iterations left, [dotIndex - filenameIndex].
    It answers [true] when it meets a character that is not a dot (the
    loop returns the split from there), and [false] when it runs to
    [dotIndex] over dots only. *)
Fixpoint skip_leading_dots (p : string) (filenameIndex : Z) (n : nat) : bool :=
  match n with
  | O => false
  | S n' =>
      if negb (String.eqb (slice1 p filenameIndex) (String extsep EmptyString))
      then true
      else skip_leading_dots p (filenameIndex + 1) n'
  end.

(** [genericpath._splitext(p, sep='/', altsep=None, extsep='.')] *)
Definition splitext (p : string) : string * string :=
  let sepIndex := rfind sep p in
  let dotIndex := rfind extsep p in
  if (sepIndex <? dotIndex)
     && skip_leading_dots p (sepIndex + 1) (Z.to_nat (dotIndex - (sepIndex + 1)))
  then (slice_to p dotIndex, slice_from p dotIndex)
  else (p, slice_to p 0).

End OsPath.

(** ** The run configuration (second code cell) *)

Record Config : Type := {
  RECREATE : bool;
  FORMAT : string;
  QUANTIZE : bool;
  SHOW : bool;
  DRY_RUN : bool
}.

(** The values the notebook is committed with. *)
Definition notebook_config : Config :=
  {| RECREATE := true; FORMAT := "blosc"; QUANTIZE := true;
     SHOW := true; DRY_RUN := false |}.

(** [path_converted], lines 85-86 of the notebook:
    ['.'.join((os.path.splitext(path_cube)[0], ('q' if QUANTIZE else '') + FORMAT))] *)
Definition path_converted (cfg : Config) (path_cube : string) : string :=
  String.concat "." [ fst (OsPath.splitext path_cube);
                      (if QUANTIZE cfg then "q" else "") ++ FORMAT cfg ].

(** ** [sorted] on a list of [str]

    Python compares strings code point by code point; on UTF-8 encoded
    paths that is the byte-wise order [String.leb].  The order is total and
    antisymmetric, so the sorted list is unique and any sorting algorithm
    computes what [sorted] computes. *)

Fixpoint insert_sorted (x : string) (l : list string) : list string :=
  match l with
  | [] => [x]
  | y :: l' => if String.leb x y then x :: y :: l' else y :: insert_sorted x l'
  end.

Fixpoint sorted (l : list string) : list string :=
  match l with
  | [] => []
  | x :: l' => insert_sorted x (sorted l')
  end.

(** The order of the sorted list: [a <= b] on Python strings. *)
Definition str_le (a b : string) : Prop := String.leb a b = true.

(** ** The driver *)

Section Driver.

(** [W] is the state of everything outside the notebook that a call can
    read or change: the filesystem and the objects of the library.  What is
    shown on the console or drawn as a figure is not part of [W]; the
    calls that show something are recorded in the trace.
    [Geometry] is a handle on a [SeismicGeometry] object, [Headers] the type
    of the header lists, [Exn] the exceptions a library call may raise. *)
Context {W Geometry Headers QMap Exn : Type}.

Inductive result (A : Type) : Type :=
| Ok (a : A)
| Raise (e : Exn).

Arguments Ok {A} a.
Arguments Raise {A} e.

(** The calls the notebook makes, with their arguments, in program order. *)
Inductive event : Type :=
| EvGlob (pattern : string)
| EvExists (path : string)
| EvPrint (text : string)
| EvConstruct (path : string) (headers index_headers : Headers)
              (collect_stats spatial recollect : bool)
| EvQualityMap (g : Geometry)
| EvGeometryPrint (g : Geometry)
| EvPrintTextual (g : Geometry)
| EvShow (g : Geometry)
| EvShowQualityMap (g : Geometry)
| EvPltShow
| EvConvert (g : Geometry) (format : string) (quantize : bool).

(** What the notebook imports.  [glob] and [os.path.exists] read the
    filesystem and never raise ([exists] answers [False] on any OS error).
    A library call takes the state it finds and gives back its outcome and
    the state it leaves. *)
Record External : Type := {
  fs_glob : W -> string -> list string;
  fs_exists : W -> string -> bool;
  HEADERS_POST_FULL : Headers;
  INDEX_POST : Headers;
  construct : string -> Headers -> Headers -> bool -> bool -> bool ->
              W -> result Geometry * W;
  quality_map : Geometry -> W -> result QMap * W;
  geometry_print : Geometry -> W -> result unit * W;
  print_textual : Geometry -> W -> result unit * W;
  show : Geometry -> W -> result unit * W;
  show_quality_map : Geometry -> W -> result unit * W;
  plt_show : W -> result unit * W;
  convert : Geometry -> string -> bool -> W -> result Geometry * W
}.

Variable X : External.

Record state : Type := { world : W; trace : list event }.

Definition log (ev : event) (s : state) : state :=
  {| world := world s; trace := trace s ++ [ev] |}.

(** Computations of the notebook: they thread the state and stop at the
    first exception. *)
Definition M (A : Type) : Type := state -> result A * state.

Definition ret {A : Type} (a : A) : M A := fun s => (Ok a, s).

Definition bind {A B : Type} (m : M A) (k : A -> M B) : M B :=
  fun s =>
    match m s with
    | (Ok a, s') => k a s'
    | (Raise e, s') => (Raise e, s')
    end.

Notation "x <- m ;; k" := (bind m (fun x => k))
  (at level 61, m at next level, right associativity).
Notation "m ;; k" := (bind m (fun _ => k))
  (at level 61, right associativity).

(** A call into the library: it runs on the current world, is recorded,
    and its exception, if any, is the outcome. *)
Definition call {A : Type} (ev : event) (f : W -> result A * W) : M A :=
  fun s =>
    let (r, w') := f (world s) in
    (r, {| world := w'; trace := trace s ++ [ev] |}).

Definition glob (pattern : string) : M (list string) :=
  fun s => (Ok (fs_glob X (world s) pattern), log (EvGlob pattern) s).

Definition os_path_exists (path : string) : M bool :=
  fun s => (Ok (fs_exists X (world s) path), log (EvExists path) s).

(** [print(a, b, ...)]: the arguments joined by a blank, then a line feed. *)
Definition print (args : list string) : M unit :=
  fun s => (Ok tt, log (EvPrint (String.concat " " args ++ PyStr.nl)) s).

(** [for x in xs: body(x)]; a [continue] is the end of [body]. *)
Fixpoint for_each {A : Type} (body : A -> M unit) (xs : list A) : M unit :=
  match xs with
  | [] => ret tt
  | x :: xs' => body x ;; for_each body xs'
  end.

Definition when (b : bool) (m : M unit) : M unit := if b then m else ret tt.

(** The body of the loop of the third code cell, for one [path_cube]. *)
Definition loop_body (cfg : Config) (path_cube : string) : M unit :=
  cube_exists <- os_path_exists path_cube ;;
  if negb cube_exists then ret tt
  else
    let path_converted := path_converted cfg path_cube in
    converted_exists <- os_path_exists path_converted ;;
    if converted_exists && negb (RECREATE cfg) then
      print [path_converted ++ " already exists, skipping"]
    else if DRY_RUN cfg then
      print ["Will convert ::: " ++ path_cube ++ PyStr.nl
             ++ "to           ::: " ++ path_converted ++ PyStr.nl]
    else
      when (SHOW cfg)
        (print [PyStr.mul "▆" 60] ;;
         print [PyStr.mul "▆" 60] ;;
         print ["Working with"; path_cube]) ;;
      geometry <- call (EvConstruct path_cube (HEADERS_POST_FULL X) (INDEX_POST X)
                                    true true true)
                       (construct X path_cube (HEADERS_POST_FULL X) (INDEX_POST X)
                                  true true true) ;;
      qmap <- call (EvQualityMap geometry) (quality_map X geometry) ;;
      when (SHOW cfg)
        (call (EvGeometryPrint geometry) (geometry_print X geometry) ;;
         call (EvPrintTextual geometry) (print_textual X geometry) ;;
         call (EvShow geometry) (show X geometry) ;;
         call (EvShowQualityMap geometry) (show_quality_map X geometry) ;;
         call EvPltShow (plt_show X)) ;;
      geometry_converted <- call (EvConvert geometry (FORMAT cfg) (QUANTIZE cfg))
                                 (convert X geometry (FORMAT cfg) (QUANTIZE cfg)) ;;
      when (SHOW cfg)
        (call (EvGeometryPrint geometry_converted)
              (geometry_print X geometry_converted) ;;
         print [PyStr.mul PyStr.nl 3]).

(** [for path_cube in tqdm(paths, ncols=800): ...] *)
Definition convert_cubes (cfg : Config) (paths : list string) : M unit :=
  for_each (loop_body cfg) paths.

(** The second code cell: [paths = sorted(glob(pattern))], then one line
    per path. *)
Definition discover (pattern : string) : M (list string) :=
  found <- glob pattern ;;
  let paths := sorted found in
  for_each (fun path => print [path]) paths ;;
  ret paths.

Definition notebook (cfg : Config) (pattern : string) : M unit :=
  paths <- discover pattern ;;
  convert_cubes cfg paths.

(** Lines 107-113 on their own: what the body runs between the quality
    map and the conversion when [SHOW] is set. *)
Definition diagnostics (geometry : Geometry) : M unit :=
  call (EvGeometryPrint geometry) (geometry_print X geometry) ;;
  call (EvPrintTextual geometry) (print_textual X geometry) ;;
  call (EvShow geometry) (show X geometry) ;;
  call (EvShowQualityMap geometry) (show_quality_map X geometry) ;;
  call EvPltShow (plt_show X).

(** The notebook with its own pattern. *)
Definition notebook_pattern : string :=
  "/data/seismic_data/seismic_interpretation/CUBE_*/amplitudes*.s*y".

(** *** Reading a trace *)

(** The calls into [SeismicGeometry] and [matplotlib]. *)
Definition is_library_call (ev : event) : bool :=
  match ev with
  | EvGlob _ | EvExists _ | EvPrint _ => false
  | _ => true
  end.

Definition is_print (ev : event) : bool :=
  match ev with
  | EvPrint _ => true
  | _ => false
  end.

(** The calls whose purpose is to show something: [print] and the
    [print], [print_textual], [show], [show_quality_map] and [plt.show]
    of the diagnostics. *)
Definition is_display (ev : event) : bool :=
  match ev with
  | EvPrint _ | EvGeometryPrint _ | EvPrintTextual _
  | EvShow _ | EvShowQualityMap _ | EvPltShow => true
  | _ => false
  end.

(** The trace without the calls that only show something. *)
Definition effective (evs : list event) : list event :=
  filter (fun ev => negb (is_display ev)) evs.

(** What [print] writes for the two notices of the policy gate. *)
Definition skip_notice (path_converted : string) : event :=
  EvPrint (path_converted ++ " already exists, skipping" ++ PyStr.nl).

Definition dry_run_report (path_cube path_converted : string) : event :=
  EvPrint ("Will convert ::: " ++ path_cube ++ PyStr.nl
           ++ "to           ::: " ++ path_converted ++ PyStr.nl ++ PyStr.nl).

(** The three lines printed before construction when [SHOW] is set. *)
Definition banner (cfg : Config) (path_cube : string) : list event :=
  if SHOW cfg then
    [ EvPrint (PyStr.mul "▆" 60 ++ PyStr.nl);
      EvPrint (PyStr.mul "▆" 60 ++ PyStr.nl);
      EvPrint ("Working with " ++ path_cube ++ PyStr.nl) ]
  else [].

(** The construction call of lines 99-104. *)
Definition construct_event (path_cube : string) : event :=
  EvConstruct path_cube (HEADERS_POST_FULL X) (INDEX_POST X) true true true.

Definition construct_call (path_cube : string) (w : W) : result Geometry * W :=
  construct X path_cube (HEADERS_POST_FULL X) (INDEX_POST X) true true true w.

(** The three checks of the policy gate in a world [w]: the cube is
    there, the converted file is absent or is to be made again, and the
    run is not a dry run. *)
Definition source_present (w : W) (path_cube : string) : bool :=
  fs_exists X w path_cube.

Definition kept_as_is (cfg : Config) (w : W) (path_cube : string) : bool :=
  fs_exists X w (path_converted cfg path_cube) && negb (RECREATE cfg).

Definition gates_pass (cfg : Config) (w : W) (path_cube : string) : bool :=
  source_present w path_cube
  && negb (kept_as_is cfg w path_cube)
  && negb (DRY_RUN cfg).

(** Modelled from the spec: the bodies of [geometry.print],
    [geometry.print_textual], [geometry.show], [geometry.show_quality_map]
    and [plt.show] are not in the notebook; section 4.4 of the
    specification gives their contract, "pure side effect (console output /
    figure rendering)": they return normally and leave the filesystem and
    the library's objects as they found them. *)
Definition diagnostics_side_effect_only : Prop :=
  (forall g w, geometry_print X g w = (Ok tt, w)) /\
  (forall g w, print_textual X g w = (Ok tt, w)) /\
  (forall g w, show X g w = (Ok tt, w)) /\
  (forall g w, show_quality_map X g w = (Ok tt, w)) /\
  (forall w, plt_show X w = (Ok tt, w)).

End Driver.

Arguments Ok {Exn A} a.
Arguments Raise {Exn A} e.

(** The configuration [cfg] with [SHOW] set to [b]. *)
Definition with_show (b : bool) (cfg : Config) : Config :=
  {| RECREATE := RECREATE cfg; FORMAT := FORMAT cfg; QUANTIZE := QUANTIZE cfg;
     SHOW := b; DRY_RUN := DRY_RUN cfg |}.

(** The shape of what [splitext] gives as an extension: nothing, or a dot
    followed by characters among which there is neither a dot nor a
    slash. *)
Definition is_extension (ext : string) : Prop :=
  ext = "" \/
  exists e, ext = String OsPath.extsep e
            /\ ~ In OsPath.extsep (list_ascii_of_string e)
            /\ ~ In OsPath.sep (list_ascii_of_string e).

(** ** A small machine to run the notebook on

    The filesystem is the list of the files present.  [glob] keeps the
    files that start with the pattern up to its first star; construction
    writes the [.meta] file of the cube next to it and conversion writes
    the converted file. *)

Module Sample.

Definition World : Type := list string.

Definition present (w : World) (path : string) : bool :=
  existsb (String.eqb path) w.

Fixpoint up_to_star (pattern : string) : string :=
  match pattern with
  | EmptyString => EmptyString
  | String c rest => if Ascii.eqb c "*" then EmptyString
                     else String c (up_to_star rest)
  end.

Definition matching (w : World) (pattern : string) : list string :=
  filter (String.prefix (up_to_star pattern)) w.

Definition target (g format : string) (quantize : bool) : string :=
  fst (OsPath.splitext g) ++ "." ++ (if quantize then "q" else "") ++ format.

Definition library : @External World string (list string) unit string :=
  {| fs_glob := matching;
     fs_exists := present;
     HEADERS_POST_FULL := ["INLINE_3D"; "CROSSLINE_3D"; "CDP_X"; "CDP_Y"];
     INDEX_POST := ["INLINE_3D"; "CROSSLINE_3D"];
     construct := fun path _ _ _ _ _ w => (Ok path, (path ++ ".meta") :: w);
     quality_map := fun _ w => (Ok tt, w);
     geometry_print := fun _ w => (Ok tt, w);
     print_textual := fun _ w => (Ok tt, w);
     show := fun _ w => (Ok tt, w);
     show_quality_map := fun _ w => (Ok tt, w);
     plt_show := fun w => (Ok tt, w);
     convert := fun g format quantize w =>
                  (Ok (target g format quantize), target g format quantize :: w) |}.

(** The same machine reading a cube it cannot parse. *)
Definition corrupt_library : @External World string (list string) unit string :=
  {| fs_glob := matching;
     fs_exists := present;
     HEADERS_POST_FULL := HEADERS_POST_FULL library;
     INDEX_POST := INDEX_POST library;
     construct := fun path _ _ _ _ _ w => (Raise "corrupt SEG-Y", w);
     quality_map := quality_map library;
     geometry_print := geometry_print library;
     print_textual := print_textual library;
     show := show library;
     show_quality_map := show_quality_map library;
     plt_show := plt_show library;
     convert := convert library |}.

(** The same machine with no room left for the converted file: a part of
    it is written and the call raises. *)
Definition full_disk_library : @External World string (list string) unit string :=
  {| fs_glob := matching;
     fs_exists := present;
     HEADERS_POST_FULL := HEADERS_POST_FULL library;
     INDEX_POST := INDEX_POST library;
     construct := construct library;
     quality_map := quality_map library;
     geometry_print := geometry_print library;
     print_textual := print_textual library;
     show := show library;
     show_quality_map := show_quality_map library;
     plt_show := plt_show library;
     convert := fun g format quantize w =>
                  (Raise "No space left on device",
                   (target g format quantize ++ ".part") :: w) |}.

Definition start (w : World) : @state World string (list string) :=
  {| world := w; trace := [] |}.

Definition quiet_config : Config :=
  {| RECREATE := false; FORMAT := "hdf5"; QUANTIZE := false;
     SHOW := false; DRY_RUN := false |}.

Definition dry_config : Config :=
  {| RECREATE := false; FORMAT := "hdf5"; QUANTIZE := false;
     SHOW := false; DRY_RUN := true |}.

End Sample.

(** ** Reading paths and traces further *)

(** The tag that takes the place of the extension,
    [('q' if QUANTIZE else '') + FORMAT]. *)
Definition tag (cfg : Config) : string :=
  (if QUANTIZE cfg then "q" else "") ++ FORMAT cfg.

(** The path up to its last slash, the slash included, and what follows
    it ([os.path.basename]). *)
Definition directory (p : string) : string :=
  PyStr.slice_to p (PyStr.rfind OsPath.sep p + 1).

Definition basename (p : string) : string :=
  PyStr.slice_from p (PyStr.rfind OsPath.sep p + 1).

(** A string with a character that is not a dot. *)
Definition has_name_char (s : string) : bool :=
  existsb (fun c => negb (Ascii.eqb c OsPath.extsep)) (list_ascii_of_string s).

(** The configuration [cfg] with [DRY_RUN] set to [b]. *)
Definition with_dry_run (b : bool) (cfg : Config) : Config :=
  {| RECREATE := RECREATE cfg; FORMAT := FORMAT cfg; QUANTIZE := QUANTIZE cfg;
     SHOW := SHOW cfg; DRY_RUN := b |}.

Section TraceReading.

Context {Geometry Headers : Type}.

(** The conversions of a trace, with their arguments, in order. *)
Definition conversions (evs : list (@event Geometry Headers))
  : list (Geometry * string * bool) :=
  flat_map (fun ev => match ev with
                      | EvConvert g format quantize => [(g, format, quantize)]
                      | _ => []
                      end) evs.

(** The calls that are given a path: [glob], [os.path.exists] and the
    construction of a geometry. *)
Definition is_path_call (ev : @event Geometry Headers) : bool :=
  match ev with
  | EvGlob _ | EvExists _ | EvConstruct _ _ _ _ _ _ => true
  | _ => false
  end.

End TraceReading.

Section GateReading.

Context {W Geometry Headers QMap Exn : Type}.
Variable X : @External W Geometry Headers QMap Exn.

(** An event that, if it is given a path, is given the cube [p] or its
    converted path, and, if it is a construction, is the construction of
    lines 99-104 for [p]. *)
Definition names_cube (cfg : Config) (p : string)
           (ev : @event Geometry Headers) : Prop :=
  match ev with
  | EvGlob _ => False
  | EvExists q => q = p \/ q = path_converted cfg p
  | EvConstruct q headers index_headers collect_stats spatial recollect =>
      q = p /\ headers = HEADERS_POST_FULL X /\ index_headers = INDEX_POST X
      /\ collect_stats = true /\ spatial = true /\ recollect = true
  | _ => True
  end.

(** An event that shows nothing, or is one of the two notices of the
    policy gate for the cube [p]. *)
Definition quiet_for (cfg : Config) (p : string)
           (ev : @event Geometry Headers) : Prop :=
  is_display ev = false
  \/ ev = skip_notice (path_converted cfg p)
  \/ ev = dry_run_report p (path_converted cfg p).

End GateReading.

(** ** The small machine with diagnostics that fail *)

Module SampleFaults.
Import Sample.

(** No display to draw on: [geometry.show] raises. *)
Definition headless_library : @External World string (list string) unit string :=
  {| fs_glob := matching;
     fs_exists := present;
     HEADERS_POST_FULL := HEADERS_POST_FULL library;
     INDEX_POST := INDEX_POST library;
     construct := construct library;
     quality_map := quality_map library;
     geometry_print := geometry_print library;
     print_textual := print_textual library;
     show := fun _ w => (Raise "no display", w);
     show_quality_map := show_quality_map library;
     plt_show := plt_show library;
     convert := convert library |}.

(** [print] knows cubes in SEG-Y only: on a converted geometry it raises. *)
Definition segy_only_print_library : @External World string (list string) unit string :=
  {| fs_glob := matching;
     fs_exists := present;
     HEADERS_POST_FULL := HEADERS_POST_FULL library;
     INDEX_POST := INDEX_POST library;
     construct := construct library;
     quality_map := quality_map library;
     geometry_print := fun g w =>
                         if String.eqb (snd (OsPath.splitext g)) ".sgy"
                         then (Ok tt, w)
                         else (Raise "not a SEG-Y", w);
     print_textual := print_textual library;
     show := show library;
     show_quality_map := show_quality_map library;
     plt_show := plt_show library;
     convert := convert library |}.

Definition loud_config : Config :=
  {| RECREATE := false; FORMAT := "hdf5"; QUANTIZE := false;
     SHOW := true; DRY_RUN := false |}.

End SampleFaults.

(** * Properties *)

(** ** Strings *)

Module PyStrFacts.
Import PyStr.

Lemma take_drop (n : nat) (p : string) : take n p ++ drop n p = p.
Proof.
  revert p; induction n as [|n IH]; intros [|a p]; simpl; trivial.
  now rewrite IH.
Qed.

Lemma app_assoc (a b c : string) : (a ++ b) ++ c = a ++ b ++ c.
Proof. induction a as [|x a IH]; simpl; congruence. Qed.

Lemma app_length (a b : string) :
  String.length (a ++ b) = (String.length a + String.length b)%nat.
Proof. induction a as [|x a IH]; simpl; congruence. Qed.

Lemma rfind_lower (c : ascii) (p : string) : -1 <= rfind c p.
Proof.
  induction p as [|a p IH]; simpl; [lia|].
  destruct (0 <=? rfind c p) eqn:E; [apply Z.leb_le in E; lia|].
  destruct (Ascii.eqb a c); lia.
Qed.

Lemma rfind_absent (c : ascii) (p : string) : rfind c p < 0 -> rfind c p = -1.
Proof. pose proof (rfind_lower c p); lia. Qed.

(** From the index [rfind] answers on, the string is [c] followed by
    characters that are not [c]. *)
Lemma rfind_drop (c : ascii) (p : string) :
  0 <= rfind c p ->
  exists e, drop (Z.to_nat (rfind c p)) p = String c e /\ rfind c e = -1.
Proof.
  induction p as [|a p IH]; simpl; [lia|].
  destruct (0 <=? rfind c p) eqn:E.
  - apply Z.leb_le in E. intros _.
    replace (Z.to_nat (rfind c p + 1)) with (S (Z.to_nat (rfind c p))) by lia.
    simpl. auto.
  - apply Z.leb_gt in E.
    destruct (Ascii.eqb_spec a c) as [->|_]; [|lia].
    intros _. simpl. exists p. split; [reflexivity|now apply rfind_absent].
Qed.

(** Past the last occurrence of [c] there is no [c]. *)
Lemma rfind_past (c : ascii) (p : string) (n : nat) :
  rfind c p < Z.of_nat n -> rfind c (drop n p) = -1.
Proof.
  revert n; induction p as [|a p IH]; intros [|n]; simpl; trivial.
  - intros H. apply (rfind_absent c (String a p)). exact H.
  - intros H. apply IH.
    destruct (0 <=? rfind c p) eqn:E; [lia|apply Z.leb_gt in E; lia].
Qed.

(** [rfind] answers [-1] exactly when the character does not occur. *)
Lemma rfind_none (c : ascii) (p : string) :
  rfind c p = -1 <-> ~ In c (list_ascii_of_string p).
Proof.
  induction p as [|a p IH]; simpl; [tauto|].
  pose proof (rfind_lower c p) as Hl.
  destruct (0 <=? rfind c p) eqn:E.
  - apply Z.leb_le in E. split; [lia|].
    intros H. exfalso. apply H. right.
    destruct (in_dec ascii_dec c (list_ascii_of_string p)) as [Hin|Hout];
      [exact Hin|]. apply IH in Hout. lia.
  - apply Z.leb_gt in E. assert (Hp : rfind c p = -1) by lia.
    apply IH in Hp.
    destruct (Ascii.eqb_spec a c) as [->|Hne].
    + split; [lia|]. intros H. exfalso. apply H. now left.
    + split; [|reflexivity]. intros _ [H|H]; [congruence|contradiction].
Qed.

Lemma rfind_tail (c a : ascii) (p : string) :
  rfind c (String a p) = -1 -> rfind c p = -1.
Proof.
  simpl. destruct (0 <=? rfind c p) eqn:E.
  - apply Z.leb_le in E. lia.
  - apply Z.leb_gt in E. intros _. now apply rfind_absent.
Qed.

End PyStrFacts.

(** ** [os.path.splitext] *)

Module OsPathFacts.
Import PyStr OsPath PyStrFacts.

Lemma splitext_join (p : string) : fst (splitext p) ++ snd (splitext p) = p.
Proof.
  unfold splitext.
  destruct (_ && _); simpl.
  - apply take_drop.
  - unfold slice_to; simpl. destruct p; simpl; trivial.
    f_equal. clear a. induction p as [|a p IH]; simpl; congruence.
Qed.

Lemma splitext_extension (p : string) : is_extension (snd (splitext p)).
Proof.
  unfold splitext.
  destruct (_ && _) eqn:E; simpl; [|now left].
  apply andb_prop in E as [E _]. apply Z.ltb_lt in E.
  pose proof (rfind_lower sep p) as Hs.
  right. unfold slice_from.
  destruct (rfind_drop extsep p) as (e & He & Hdot); [lia|].
  exists e. rewrite He. repeat split.
  - now apply rfind_none.
  - apply rfind_none. apply (rfind_tail sep extsep). rewrite <- He.
    apply rfind_past. lia.
Qed.

End OsPathFacts.


(** ** [sorted] *)

Module SortedFacts.

Lemma compare_trans_le (a b c : string) :
  String.compare a b <> Gt -> String.compare b c <> Gt ->
  String.compare a c <> Gt.
Proof.
  revert b c; induction a as [|x a IH]; intros [|y b] [|z c]; simpl;
    try congruence.
  unfold Ascii.compare.
  destruct (N.compare_spec (N_of_ascii x) (N_of_ascii y)),
           (N.compare_spec (N_of_ascii y) (N_of_ascii z)),
           (N.compare_spec (N_of_ascii x) (N_of_ascii z));
    try congruence; try lia.
  apply IH.
Qed.

Lemma str_le_trans (a b c : string) : str_le a b -> str_le b c -> str_le a c.
Proof.
  unfold str_le, String.leb. intros Hab Hbc.
  pose proof (compare_trans_le a b c) as H.
  destruct (String.compare a b); try discriminate;
    destruct (String.compare b c); try discriminate;
    destruct (String.compare a c); trivial;
    exfalso; apply H; congruence.
Qed.

Lemma str_le_total (a b : string) : str_le a b \/ str_le b a.
Proof. apply String.leb_total. Qed.

Lemma insert_sorted_perm (x : string) (l : list string) :
  Permutation (x :: l) (insert_sorted x l).
Proof.
  induction l as [|y l IH]; simpl; [reflexivity|].
  destruct (String.leb x y); [reflexivity|].
  rewrite perm_swap. now constructor.
Qed.

Lemma sorted_perm (l : list string) : Permutation l (sorted l).
Proof.
  induction l as [|x l IH]; simpl; [constructor|].
  rewrite <- insert_sorted_perm. now constructor.
Qed.

Lemma insert_sorted_hd (a x : string) (l : list string) :
  str_le a x -> HdRel str_le a l -> HdRel str_le a (insert_sorted x l).
Proof.
  intros Hax Hal. destruct l as [|y l]; simpl; [now constructor|].
  destruct (String.leb x y); constructor; trivial.
  now inversion Hal.
Qed.

Lemma insert_sorted_ordered (x : string) (l : list string) :
  Sorted str_le l -> Sorted str_le (insert_sorted x l).
Proof.
  induction 1 as [|y l Hl IH Hhd]; simpl.
  - repeat constructor.
  - destruct (String.leb x y) eqn:E.
    + repeat constructor; trivial.
    + constructor; [exact IH|].
      apply insert_sorted_hd; [|exact Hhd].
      destruct (str_le_total x y) as [H|H]; [unfold str_le in H; congruence|exact H].
Qed.

Lemma sorted_ordered (l : list string) : Sorted str_le (sorted l).
Proof.
  induction l as [|x l IH]; simpl; [constructor|].
  now apply insert_sorted_ordered.
Qed.

Lemma sorted_strongly (l : list string) : StronglySorted str_le (sorted l).
Proof.
  apply Sorted_StronglySorted; [|apply sorted_ordered].
  intros a b c. apply str_le_trans.
Qed.

End SortedFacts.

(** ** The loop body, case by case *)

Section DriverFacts.

Context {W Geometry Headers QMap Exn : Type}.
Variable X : @External W Geometry Headers QMap Exn.

Local Abbreviation state := (@state W Geometry Headers).
Local Abbreviation event := (@event Geometry Headers).

Lemma app_one {A : Type} (l : list A) (a : A) (l' : list A) :
  ((l ++ [a]) ++ l' = l ++ a :: l')%list.
Proof. now rewrite <- app_assoc. Qed.

Lemma state_eta (s : state) : {| world := world s; trace := trace s |} = s.
Proof. now destruct s. Qed.

Ltac run_body :=
  unfold loop_body, convert_cubes, diagnostics, bind, os_path_exists, print, call,
         when, ret, log, source_present, kept_as_is, construct_call,
         construct_event, skip_notice, dry_run_report in *;
  cbn [world trace String.concat fst snd negb andb for_each] in *.

(** Case analysis on the outcome of the next call into the library. *)
Ltac next_call :=
  match goal with
  | |- context [let (_, _) := ?t in _] =>
      lazymatch t with
      | context [let (_, _) := _ in _] => fail
      | _ => destruct t as [[?|?] ?]; cbn [world trace]
      end
  end.

Ltac tidy_trace :=
  cbn [world trace];
  repeat rewrite app_one; repeat rewrite <- List.app_assoc;
  cbn [app]; rewrite ?PyStrFacts.app_assoc.

(** A cube that is not there: one existence check, and the body is over. *)
Lemma body_missing (cfg : Config) (p : string) (s : state) :
  source_present X (world s) p = false ->
  loop_body X cfg p s = (Ok tt, log (EvExists p) s).
Proof. intros H. run_body. rewrite H. reflexivity. Qed.

(** A cube whose converted file is kept: two checks and the notice. *)
Lemma body_kept (cfg : Config) (p : string) (s : state) :
  source_present X (world s) p = true ->
  kept_as_is X cfg (world s) p = true ->
  loop_body X cfg p s
  = (Ok tt, {| world := world s;
               trace := trace s ++ [EvExists p;
                                    EvExists (path_converted cfg p);
                                    skip_notice (path_converted cfg p)] |}).
Proof.
  intros H1 H2. run_body. rewrite H1. cbn [negb world trace].
  rewrite H2. tidy_trace. reflexivity.
Qed.

(** A dry run: two checks and the report. *)
Lemma body_dry_run (cfg : Config) (p : string) (s : state) :
  source_present X (world s) p = true ->
  kept_as_is X cfg (world s) p = false ->
  DRY_RUN cfg = true ->
  loop_body X cfg p s
  = (Ok tt, {| world := world s;
               trace := trace s ++ [EvExists p;
                                    EvExists (path_converted cfg p);
                                    dry_run_report p (path_converted cfg p)] |}).
Proof.
  intros H1 H2 H3. run_body. rewrite H1. cbn [negb world trace].
  rewrite H2, H3. tidy_trace. reflexivity.
Qed.


(** Past the gate: the banner when [SHOW] is set, then construction, then
    only calls into the library and, last, the closing blank lines. *)
Lemma body_proceeds (cfg : Config) (p : string) (s : state) :
  source_present X (world s) p = true ->
  kept_as_is X cfg (world s) p = false ->
  DRY_RUN cfg = false ->
  exists r w' tail,
    loop_body X cfg p s
    = (r, {| world := w';
             trace := trace s ++ [EvExists p; EvExists (path_converted cfg p)]
                      ++ banner cfg p ++ construct_event X p :: tail |})
    /\ Forall (fun ev : event => is_library_call ev = true
                         \/ ev = EvPrint (PyStr.mul PyStr.nl 3 ++ PyStr.nl)) tail.
Proof.
  intros H1 H2 H3. run_body. rewrite H1. cbn [negb world trace].
  rewrite H2, H3. unfold banner.
  destruct (SHOW cfg); cbn [world trace];
    repeat next_call;
    do 3 eexists; (split; [tidy_trace; reflexivity|]);
    repeat (apply Forall_cons; [first [now left | now right]|]);
    apply Forall_nil.
Qed.

(** Whenever one of the three checks stops the cube, the body ends
    normally, has left the world alone, and has called nothing of the
    library. *)
Lemma body_skips (cfg : Config) (p : string) (s : state) :
  gates_pass X cfg (world s) p = false ->
  exists evs,
    loop_body X cfg p s
    = (Ok tt, {| world := world s; trace := trace s ++ evs |})
    /\ Forall (fun ev : event => is_library_call ev = false) evs.
Proof.
  unfold gates_pass. intros H.
  destruct (source_present X (world s) p) eqn:H1.
  - destruct (kept_as_is X cfg (world s) p) eqn:H2.
    + rewrite (body_kept _ _ _ H1 H2). eexists. split; [reflexivity|].
      repeat constructor.
    + destruct (DRY_RUN cfg) eqn:H3; [|discriminate].
      rewrite (body_dry_run _ _ _ H1 H2 H3). eexists. split; [reflexivity|].
      repeat constructor.
  - rewrite (body_missing _ _ _ H1). eexists. split; [reflexivity|].
    repeat constructor.
Qed.

(** *** The loop *)

Lemma convert_cubes_cons (cfg : Config) (p : string) (rest : list string) (s : state) :
  convert_cubes X cfg (p :: rest) s
  = match loop_body X cfg p s with
    | (Ok _, s') => convert_cubes X cfg rest s'
    | (Raise e, s') => (Raise e, s')
    end.
Proof. reflexivity. Qed.

Lemma convert_cubes_app (cfg : Config) (pre post : list string) (s : state) :
  convert_cubes X cfg (pre ++ post) s
  = match convert_cubes X cfg pre s with
    | (Ok _, s') => convert_cubes X cfg post s'
    | (Raise e, s') => (Raise e, s')
    end.
Proof.
  revert s; induction pre as [|p pre IH]; intros s; [reflexivity|].
  rewrite <- List.app_comm_cons, !convert_cubes_cons.
  destruct (loop_body X cfg p s) as [[[]|e] s']; [apply IH|reflexivity].
Qed.

(** ** The policy gate *)

(** C2. In a dry run no cube leads to a call of the library, whatever the
    filesystem holds and whatever [RECREATE] is: for one cube and for the
    whole list the run ends normally, the world is the one it started from,
    and the calls made are existence checks and prints only. *)
Theorem dry_run_calls_nothing (cfg : Config) :
  DRY_RUN cfg = true ->
  (forall (p : string) (s : state),
      exists evs,
        loop_body X cfg p s
        = (Ok tt, {| world := world s; trace := trace s ++ evs |})
        /\ Forall (fun ev : event => is_library_call ev = false) evs)
  /\
  (forall (paths : list string) (s : state),
      exists evs,
        convert_cubes X cfg paths s
        = (Ok tt, {| world := world s; trace := trace s ++ evs |})
        /\ Forall (fun ev : event => is_library_call ev = false) evs).
Proof.
  intros Hdry.
  assert (Hbody : forall p s, exists evs,
             loop_body X cfg p s
             = (Ok tt, {| world := world s; trace := trace s ++ evs |})
             /\ Forall (fun ev : event => is_library_call ev = false) evs).
  { intros p s. apply body_skips. unfold gates_pass. rewrite Hdry.
    now rewrite andb_false_r. }
  split; [exact Hbody|].
  induction paths as [|p paths IH]; intros s.
  - exists []. split; [|constructor].
    unfold convert_cubes, for_each, ret. now rewrite List.app_nil_r, state_eta.
  - rewrite convert_cubes_cons.
    destruct (Hbody p s) as (evs1 & -> & H1).
    destruct (IH {| world := world s; trace := trace s ++ evs1 |})
      as (evs2 & -> & H2).
    exists (evs1 ++ evs2)%list. cbn [world trace].
    rewrite List.app_assoc. split; [reflexivity|].
    apply Forall_app; now split.
Qed.

(** C3, as the code has it.  When the converted file is there and
    [RECREATE] is off, the body ends normally without a call into the
    library and with the world as it was.  What it prints depends on the
    cube: the skip notice when the cube is there, nothing when it is
    not. *)
Theorem kept_artifact_is_not_touched (cfg : Config) (p : string) (s : state) :
  fs_exists X (world s) (path_converted cfg p) = true ->
  RECREATE cfg = false ->
  loop_body X cfg p s
  = (Ok tt,
     {| world := world s;
        trace := trace s ++
                 (if fs_exists X (world s) p
                  then [EvExists p; EvExists (path_converted cfg p);
                        skip_notice (path_converted cfg p)]
                  else [EvExists p]) |})
  /\ Forall (fun ev : event => is_library_call ev = false)
            (if fs_exists X (world s) p
             then [EvExists p; EvExists (path_converted cfg p);
                   skip_notice (path_converted cfg p)]
             else [EvExists p]).
Proof.
  intros Hconv Hrec.
  destruct (fs_exists X (world s) p) eqn:Hsrc.
  - split; [|repeat constructor].
    apply body_kept; [exact Hsrc|].
    unfold kept_as_is. now rewrite Hconv, Hrec.
  - split; [|repeat constructor].
    now apply body_missing.
Qed.

(** C4. A cube that is not on the filesystem costs one existence check:
    the body ends normally, prints nothing, calls nothing of the library
    and leaves the world alone, and the loop goes on with the cubes that
    remain. *)
Theorem missing_cube_skipped_silently
        (cfg : Config) (p : string) (rest : list string) (s : state) :
  fs_exists X (world s) p = false ->
  loop_body X cfg p s
  = (Ok tt, {| world := world s; trace := trace s ++ [EvExists p] |})
  /\ Forall (fun ev : event => is_print ev = false /\ is_library_call ev = false)
            [EvExists p : event]
  /\ convert_cubes X cfg (p :: rest) s
     = convert_cubes X cfg rest
         {| world := world s; trace := trace s ++ [EvExists p] |}.
Proof.
  intros H. pose proof (body_missing cfg p s H) as Hb. unfold log in Hb.
  repeat split.
  - exact Hb.
  - repeat constructor.
  - rewrite convert_cubes_cons, Hb. reflexivity.
Qed.

(** C5. The events of the body follow the order of the checks.  The first
    is the existence check of the cube; if it fails there is no other.
    The second is the existence check of the converted path; a converted
    file that is kept ends the body with the skip notice, before the
    dry-run flag is looked at; then a dry run ends it with the report.
    Only past the three checks comes construction, after nothing but the
    two checks and the banner, and a call into the library occurs exactly
    when the three checks have passed: a cube that is skipped ends
    normally with the world untouched. *)
Theorem gates_before_construction (cfg : Config) (p : string) (s : state) :
  exists r w' tail,
    loop_body X cfg p s
    = (r, {| world := w';
             trace := trace s ++
               EvExists p ::
               (if source_present X (world s) p then
                  EvExists (path_converted cfg p) ::
                  (if kept_as_is X cfg (world s) p then
                     [skip_notice (path_converted cfg p)]
                   else if DRY_RUN cfg then
                     [dry_run_report p (path_converted cfg p)]
                   else banner cfg p ++ construct_event X p :: tail)
                else []) |})
    /\ existsb is_library_call
         (EvExists p ::
          (if source_present X (world s) p then
             EvExists (path_converted cfg p) ::
             (if kept_as_is X cfg (world s) p then
                [skip_notice (path_converted cfg p)]
              else if DRY_RUN cfg then
                [dry_run_report p (path_converted cfg p)]
              else banner cfg p ++ construct_event X p :: tail)
           else []))
       = gates_pass X cfg (world s) p
    /\ forallb is_print (banner cfg p : list event) = true
    /\ (gates_pass X cfg (world s) p = true \/ (r = Ok tt /\ w' = world s)).
Proof.
  unfold gates_pass.
  destruct (source_present X (world s) p) eqn:H1;
    [destruct (kept_as_is X cfg (world s) p) eqn:H2;
     [|destruct (DRY_RUN cfg) eqn:H3]|].
  - exists (Ok tt), (world s), []. rewrite (body_kept _ _ _ H1 H2).
    repeat split; auto. unfold banner; now destruct (SHOW cfg).
  - exists (Ok tt), (world s), []. rewrite (body_dry_run _ _ _ H1 H2 H3).
    repeat split; auto. unfold banner; now destruct (SHOW cfg).
  - destruct (body_proceeds _ _ _ H1 H2 H3) as (r & w' & tail & -> & _).
    exists r, w', tail. repeat split; auto.
    + unfold banner; now destruct (SHOW cfg).
    + unfold banner; now destruct (SHOW cfg).
  - exists (Ok tt), (world s), []. rewrite (body_missing _ _ _ H1).
    repeat split; auto. unfold banner; now destruct (SHOW cfg).
Qed.

(** The two notices are never the same line: the report is the longer. *)
Lemma report_is_not_notice (p conv : string) :
  dry_run_report p conv <> (skip_notice conv : event).
Proof.
  unfold dry_run_report, skip_notice. intros H. injection H as H.
  apply (f_equal String.length) in H.
  repeat first [rewrite PyStrFacts.app_length in H | progress cbn in H]. lia.
Qed.

(** C10, as the code has it.  With the cube there, a converted file that
    is kept ends the body with the skip notice, in a dry run as in a real
    one, and the dry-run report is not printed.  The report is printed only
    in a dry run for a cube that is there and whose converted file is not
    kept. *)
Theorem recreate_gate_before_dry_run (cfg : Config) (p : string) (s : state) :
  exists r w' evs,
    loop_body X cfg p s = (r, {| world := w'; trace := trace s ++ evs |})
    /\ (DRY_RUN cfg = true ->
        fs_exists X (world s) p = true ->
        fs_exists X (world s) (path_converted cfg p) = true ->
        RECREATE cfg = false ->
        r = Ok tt /\ w' = world s
        /\ evs = [EvExists p; EvExists (path_converted cfg p);
                  skip_notice (path_converted cfg p)]
        /\ ~ In (dry_run_report p (path_converted cfg p)) evs)
    /\ (In (dry_run_report p (path_converted cfg p)) evs ->
        DRY_RUN cfg = true
        /\ source_present X (world s) p = true
        /\ kept_as_is X cfg (world s) p = false).
Proof.
  destruct (source_present X (world s) p) eqn:H1;
    [destruct (kept_as_is X cfg (world s) p) eqn:H2;
     [|destruct (DRY_RUN cfg) eqn:H3]|].
  - rewrite (body_kept _ _ _ H1 H2). do 3 eexists.
    split; [reflexivity|]. split.
    + intros _ _ _ _. repeat split.
      intros [H|[H|[H|[]]]]; try discriminate.
      symmetry in H. now apply report_is_not_notice in H.
    + intros [H|[H|[H|[]]]]; try discriminate.
      symmetry in H. now apply report_is_not_notice in H.
  - rewrite (body_dry_run _ _ _ H1 H2 H3). do 3 eexists.
    split; [reflexivity|]. split; [|auto].
    intros _ _ Hc Hr. unfold kept_as_is in H2. rewrite Hc, Hr in H2.
    discriminate.
  - destruct (body_proceeds _ _ _ H1 H2 H3) as (r & w' & tail & -> & Htail).
    do 3 eexists. split; [reflexivity|]. split; [discriminate|].
    intros H. exfalso.
    apply in_app_or in H as [H|H].
    { destruct H as [H|[H|[]]]; discriminate. }
    apply in_app_or in H as [H|H].
    { unfold banner in H. destruct (SHOW cfg); [|contradiction].
      destruct H as [H|[H|[H|[]]]]; cbn in H; discriminate. }
    destruct H as [H|H]; [discriminate|].
    rewrite Forall_forall in Htail. destruct (Htail _ H) as [Hl|Hl].
    + discriminate.
    + cbn in Hl. discriminate.
  - rewrite (body_missing _ _ _ H1). do 3 eexists.
    split; [reflexivity|]. split.
    + intros _ Hs. unfold source_present in H1. congruence.
    + intros [H|[]]. discriminate.
Qed.

(** ** Construction, quality map, conversion *)

(** C9. Past the three checks, once construction has given its geometry
    the next call is the quality map of that geometry, in the world
    construction left: whatever [SHOW] is, the events of the body are the
    two checks, the banner (empty without [SHOW]), construction and the
    quality map, then the rest. *)
Theorem quality_map_always_computed
        (cfg : Config) (p : string) (s : state) (g : Geometry) (w1 : W) :
  source_present X (world s) p = true ->
  kept_as_is X cfg (world s) p = false ->
  DRY_RUN cfg = false ->
  construct_call X p (world s) = (Ok g, w1) ->
  exists r w' tail,
    loop_body X cfg p s
    = (r, {| world := w';
             trace := trace s ++ [EvExists p; EvExists (path_converted cfg p)]
                      ++ banner cfg p
                      ++ [construct_event X p; EvQualityMap g] ++ tail |})
    /\ (SHOW cfg = false -> banner cfg p = ([] : list event))
    /\ (forall e w2, quality_map X g w1 = (Raise e, w2) ->
                     r = Raise e /\ w' = w2 /\ tail = []).
Proof.
  intros H1 H2 H3 Hc. run_body. rewrite H1. cbn [negb world trace].
  rewrite H2, H3. unfold banner.
  destruct (SHOW cfg); cbn [world trace]; rewrite Hc; cbn [world trace];
    destruct (quality_map X g w1) as [[qm|e] w2] eqn:Hq; cbn [world trace];
    repeat next_call;
    do 3 eexists; (split; [tidy_trace; reflexivity|]);
    (split; [intros; try reflexivity; try discriminate|]);
    intros e' w2' Heq; try discriminate;
    injection Heq as <- <-; repeat split.
Qed.

(** C7. What a library call raises is what the run ends with.  An
    exception of the body is the outcome of the whole loop, in the state
    the body stopped in: the cubes that remain are not looked at.  When
    construction raises, the outcome of the body is that exception, the
    world is the one the failed call left and construction is the last
    event; the same holds when conversion raises. *)
Theorem exceptions_abort_the_run
        (cfg : Config) (pre : list string) (p : string) (rest : list string)
        (s0 s1 : state) :
  convert_cubes X cfg pre s0 = (Ok tt, s1) ->
  (forall e s2,
      loop_body X cfg p s1 = (Raise e, s2) ->
      convert_cubes X cfg (pre ++ p :: rest) s0 = (Raise e, s2))
  /\
  (gates_pass X cfg (world s1) p = true ->
   forall e w',
     construct_call X p (world s1) = (Raise e, w') ->
     loop_body X cfg p s1
     = (Raise e,
        {| world := w';
           trace := trace s1 ++ [EvExists p; EvExists (path_converted cfg p)]
                    ++ banner cfg p ++ [construct_event X p] |}))
  /\
  (gates_pass X cfg (world s1) p = true ->
   forall g w1 qm w2 s3 e w4,
     construct_call X p (world s1) = (Ok g, w1) ->
     quality_map X g w1 = (Ok qm, w2) ->
     when (SHOW cfg) (diagnostics X g)
          {| world := w2;
             trace := trace s1 ++ [EvExists p; EvExists (path_converted cfg p)]
                      ++ banner cfg p
                      ++ [construct_event X p; EvQualityMap g] |}
     = (Ok tt, s3) ->
     convert X g (FORMAT cfg) (QUANTIZE cfg) (world s3) = (Raise e, w4) ->
     loop_body X cfg p s1
     = (Raise e,
        {| world := w4;
           trace := trace s3 ++ [EvConvert g (FORMAT cfg) (QUANTIZE cfg)] |})).
Proof.
  intros Hpre. split; [|split].
  - intros e s2 Hb. rewrite convert_cubes_app, Hpre, convert_cubes_cons, Hb.
    reflexivity.
  - unfold gates_pass. intros Hg e w' Hc.
    apply andb_prop in Hg as [Hg H3]. apply andb_prop in Hg as [H1 H2].
    apply negb_true_iff in H2, H3.
    run_body. rewrite H1. cbn [negb world trace]. rewrite H2, H3.
    unfold banner. destruct (SHOW cfg); cbn [world trace]; rewrite Hc;
      tidy_trace; reflexivity.
  - unfold gates_pass. intros Hg g w1 qm w2 s3 e w4 Hc Hq Hd Hv.
    apply andb_prop in Hg as [Hg H3]. apply andb_prop in Hg as [H1 H2].
    apply negb_true_iff in H2, H3.
    revert Hd Hv.
    run_body. rewrite H1. cbn [negb world trace]. rewrite H2, H3.
    unfold banner. destruct (SHOW cfg); cbn [world trace]; rewrite Hc;
      cbn [world trace]; rewrite Hq; cbn [world trace].
    + do 5 (next_call; [|intros; discriminate]).
      intros Hd Hv. injection Hd as -> <-. cbn [world trace] in Hv.
      rewrite Hv. tidy_trace. reflexivity.
    + intros Hd Hv. injection Hd as <-. cbn [world trace] in Hv.
      rewrite Hv. tidy_trace. reflexivity.
Qed.

(** ** The diagnostics *)

Lemma effective_app (a b : list event) :
  effective (a ++ b) = (effective a ++ effective b)%list.
Proof. apply filter_app. Qed.

Lemma in_effective (ev : event) (l : list event) :
  is_display ev = false -> (In ev l <-> In ev (effective l)).
Proof.
  intros H. unfold effective. rewrite filter_In, H. cbn. tauto.
Qed.

Lemma path_converted_with_show (b : bool) (cfg : Config) (p : string) :
  path_converted (with_show b cfg) p = path_converted cfg p.
Proof. reflexivity. Qed.

(** One cube, run with and without [SHOW] from two states that agree on
    the world and on the calls that count. *)
Lemma body_show_irrelevant (cfg : Config) (p : string) (s_on s_off : state) :
  diagnostics_side_effect_only X ->
  world s_on = world s_off ->
  effective (trace s_on) = effective (trace s_off) ->
  fst (loop_body X (with_show true cfg) p s_on)
  = fst (loop_body X (with_show false cfg) p s_off)
  /\ world (snd (loop_body X (with_show true cfg) p s_on))
     = world (snd (loop_body X (with_show false cfg) p s_off))
  /\ effective (trace (snd (loop_body X (with_show true cfg) p s_on)))
     = effective (trace (snd (loop_body X (with_show false cfg) p s_off))).
Proof.
  intros (Hp & Ht & Hs & Hq & Hpl) Hw He.
  destruct s_on as [w t1], s_off as [w2 t2]. cbn [world trace] in Hw, He.
  subst w2. run_body. rewrite !path_converted_with_show.
  cbn [with_show SHOW RECREATE DRY_RUN FORMAT QUANTIZE].
  destruct (fs_exists X w p); cbn [negb world trace fst snd];
    [destruct (fs_exists X w (path_converted cfg p) && negb (RECREATE cfg));
     [|destruct (DRY_RUN cfg)]|];
    cbn [world trace fst snd];
    repeat first
      [ progress (rewrite ?Hp, ?Ht, ?Hs, ?Hq, ?Hpl; cbn [world trace fst snd])
      | next_call; cbn [fst snd] ];
    repeat split;
    rewrite ?effective_app, He; cbn [effective filter is_display negb];
    rewrite ?List.app_nil_r; reflexivity.
Qed.

(** C6. With diagnostics that only show, [SHOW] changes nothing but what
    is shown: the run over any list of cubes ends with the same outcome
    and in the same world with [SHOW] set as without, and apart from the
    prints and the diagnostics the two runs make the same calls in the same
    order, the conversions with their arguments among them. *)
Theorem show_changes_nothing_but_display
        (cfg : Config) (paths : list string) (s : state) :
  diagnostics_side_effect_only X ->
  fst (convert_cubes X (with_show true cfg) paths s)
  = fst (convert_cubes X (with_show false cfg) paths s)
  /\ world (snd (convert_cubes X (with_show true cfg) paths s))
     = world (snd (convert_cubes X (with_show false cfg) paths s))
  /\ effective (trace (snd (convert_cubes X (with_show true cfg) paths s)))
     = effective (trace (snd (convert_cubes X (with_show false cfg) paths s)))
  /\ (forall g format quantize,
        In (EvConvert g format quantize)
           (trace (snd (convert_cubes X (with_show true cfg) paths s)))
        <-> In (EvConvert g format quantize)
               (trace (snd (convert_cubes X (with_show false cfg) paths s)))).
Proof.
  intros Hdiag.
  assert (Hgen : forall s_on s_off : state,
             world s_on = world s_off ->
             effective (trace s_on) = effective (trace s_off) ->
             fst (convert_cubes X (with_show true cfg) paths s_on)
             = fst (convert_cubes X (with_show false cfg) paths s_off)
             /\ world (snd (convert_cubes X (with_show true cfg) paths s_on))
                = world (snd (convert_cubes X (with_show false cfg) paths s_off))
             /\ effective (trace (snd (convert_cubes X (with_show true cfg) paths s_on)))
                = effective (trace (snd (convert_cubes X (with_show false cfg) paths s_off)))).
  { induction paths as [|p paths IH]; intros s_on s_off Hw He.
    - cbn. auto.
    - rewrite !convert_cubes_cons.
      destruct (body_show_irrelevant cfg p s_on s_off Hdiag Hw He)
        as (Hr & Hw' & He').
      destruct (loop_body X (with_show true cfg) p s_on) as [[[]|e1] s1'],
               (loop_body X (with_show false cfg) p s_off) as [[[]|e2] s2'];
        cbn [fst snd] in *; try discriminate.
      + now apply IH.
      + auto. }
  destruct (Hgen s s eq_refl eq_refl) as (Hr & Hw & He).
  repeat split; trivial.
  - intros H.
    apply (proj2 (in_effective (EvConvert g format quantize) _ eq_refl)).
    rewrite <- He.
    apply (proj1 (in_effective (EvConvert g format quantize) _ eq_refl)).
    exact H.
  - intros H.
    apply (proj2 (in_effective (EvConvert g format quantize) _ eq_refl)).
    rewrite He.
    apply (proj1 (in_effective (EvConvert g format quantize) _ eq_refl)).
    exact H.
Qed.

(** ** Path discovery *)

Lemma print_each (l : list string) (s : state) :
  for_each (fun path => print [path]) l s
  = (@Ok Exn unit tt, {| world := world s;
               trace := trace s ++ map (fun path => EvPrint (path ++ PyStr.nl)) l |}).
Proof.
  revert s; induction l as [|x l IH]; intros s; cbn [for_each map].
  - unfold ret. now rewrite List.app_nil_r, state_eta.
  - unfold bind at 1. unfold print at 1, log.
    rewrite IH. cbn [world trace String.concat]. now rewrite app_one.
Qed.

(** C8. The paths of the run are the matches of the pattern put in
    order: the sorted list has the matches as its elements, as many times
    each, and every path in it is below, in the order of strings, all the
    paths that follow it.  The cell ends normally having read the
    filesystem once and printed the paths, and has changed nothing.  With
    no match the list is empty and the whole notebook ends normally after
    the one [glob], with nothing converted. *)
Theorem discovery_sorted (cfg : Config) (pattern : string) (s : state) :
  discover X pattern s
  = (Ok (sorted (fs_glob X (world s) pattern)),
     {| world := world s;
        trace := trace s ++
                 EvGlob pattern ::
                 map (fun path => EvPrint (path ++ PyStr.nl))
                     (sorted (fs_glob X (world s) pattern)) |})
  /\ Sorted str_le (sorted (fs_glob X (world s) pattern))
  /\ StronglySorted str_le (sorted (fs_glob X (world s) pattern))
  /\ Permutation (fs_glob X (world s) pattern)
                 (sorted (fs_glob X (world s) pattern))
  /\ (fs_glob X (world s) pattern = [] ->
      sorted (fs_glob X (world s) pattern) = []
      /\ notebook X cfg pattern s
         = (Ok tt, {| world := world s; trace := trace s ++ [EvGlob pattern] |})).
Proof.
  assert (Hd : discover X pattern s
               = (Ok (sorted (fs_glob X (world s) pattern)),
                  {| world := world s;
                     trace := trace s ++
                              EvGlob pattern ::
                              map (fun path => EvPrint (path ++ PyStr.nl))
                                  (sorted (fs_glob X (world s) pattern)) |})).
  { unfold discover, bind at 1, glob, log. unfold bind. rewrite print_each.
    unfold ret. cbn [world trace]. now rewrite app_one. }
  repeat split.
  - exact Hd.
  - apply SortedFacts.sorted_ordered.
  - apply SortedFacts.sorted_strongly.
  - apply SortedFacts.sorted_perm.
  - rewrite H. reflexivity.
  - unfold notebook, bind. rewrite Hd, H. reflexivity.
Qed.

(** ** Further facts on the loop *)

Lemma conversions_app (a b : list event) :
  conversions (a ++ b) = (conversions a ++ conversions b)%list.
Proof. apply flat_map_app. Qed.

Lemma conversions_banner (cfg : Config) (p : string) :
  conversions (banner cfg p : list event) = [].
Proof. unfold banner. now destruct (SHOW cfg). Qed.

(** Past the gate, in more detail: after construction no call is given a
    path, without [SHOW] nothing is shown, and there is at most one
    conversion, of the geometry construction returned. *)
Lemma body_proceeds_detail (cfg : Config) (p : string) (s : state) :
  source_present X (world s) p = true ->
  kept_as_is X cfg (world s) p = false ->
  DRY_RUN cfg = false ->
  exists r w' tail,
    loop_body X cfg p s
    = (r, {| world := w';
             trace := trace s ++ [EvExists p; EvExists (path_converted cfg p)]
                      ++ banner cfg p ++ construct_event X p :: tail |})
    /\ Forall (fun ev : event => is_path_call ev = false) tail
    /\ (SHOW cfg = false -> Forall (fun ev : event => is_display ev = false) tail)
    /\ (conversions tail = []
        \/ exists g w1,
             construct_call X p (world s) = (Ok g, w1)
             /\ conversions tail = [(g, FORMAT cfg, QUANTIZE cfg)]).
Proof.
  intros H1 H2 H3. run_body. rewrite H1. cbn [negb world trace].
  rewrite H2, H3. unfold banner.
  destruct (SHOW cfg); cbn [world trace];
    destruct (construct X p (HEADERS_POST_FULL X) (INDEX_POST X) true true true
                        (world s)) as [[g|e] w1] eqn:Hc;
    cbn [world trace];
    repeat next_call;
    do 3 eexists; (split; [tidy_trace; reflexivity|]);
    (split; [repeat constructor|]);
    (split; [intros Hs; try discriminate Hs; repeat constructor|]);
    cbn; first [now left | right; exists g, w1; now split].
Qed.

(** What holds of the events of every body holds of the events of the
    loop, for the path of the body that made them. *)
Lemma loop_forall (Q : string -> event -> Prop) (cfg : Config) :
  (forall p s, exists r w' evs,
      loop_body X cfg p s = (r, {| world := w'; trace := trace s ++ evs |})
      /\ Forall (Q p) evs) ->
  forall paths s, exists r w' evs,
      convert_cubes X cfg paths s
      = (r, {| world := w'; trace := trace s ++ evs |})
      /\ Forall (fun ev => exists p, In p paths /\ Q p ev) evs.
Proof.
  intros Hbody. induction paths as [|p paths IH]; intros s.
  - exists (Ok tt), (world s), []. split; [|constructor].
    unfold convert_cubes, for_each, ret. now rewrite List.app_nil_r, state_eta.
  - rewrite convert_cubes_cons.
    destruct (Hbody p s) as (r & w' & evs & -> & HQ).
    assert (HQ' : Forall (fun ev => exists q, In q (p :: paths) /\ Q q ev) evs).
    { eapply Forall_impl; [|exact HQ]. intros ev Hev. exists p. split; [now left|exact Hev]. }
    destruct r as [[]|e].
    + destruct (IH {| world := w'; trace := trace s ++ evs |})
        as (r2 & w2 & evs2 & -> & HQ2).
      exists r2, w2, (evs ++ evs2)%list. cbn [world trace].
      rewrite List.app_assoc. split; [reflexivity|].
      apply Forall_app. split; [exact HQ'|].
      eapply Forall_impl; [|exact HQ2].
      intros ev (q & Hq & Hev). exists q. split; [now right|exact Hev].
    + exists (Raise e), w', evs. split; [reflexivity|exact HQ'].
Qed.

(** One cube, one conversion at most. *)
Lemma body_conversions (cfg : Config) (p : string) (s : state) :
  exists r w' evs,
    loop_body X cfg p s = (r, {| world := w'; trace := trace s ++ evs |})
    /\ (conversions evs = []
        \/ exists g w1,
             gates_pass X cfg (world s) p = true
             /\ construct_call X p (world s) = (Ok g, w1)
             /\ conversions evs = [(g, FORMAT cfg, QUANTIZE cfg)]).
Proof.
  destruct (gates_pass X cfg (world s) p) eqn:Hg.
  - unfold gates_pass in Hg.
    apply andb_prop in Hg as [Hg H3]. apply andb_prop in Hg as [H1 H2].
    apply negb_true_iff in H2, H3.
    destruct (body_proceeds_detail _ _ _ H1 H2 H3)
      as (r & w' & tail & -> & _ & _ & Hconv).
    do 3 eexists. split; [reflexivity|].
    rewrite !conversions_app, conversions_banner.
    unfold conversions, construct_event in *. cbn [flat_map app].
    destruct Hconv as [->|(g & w1 & Hc & ->)]; [now left|].
    right. exists g, w1. now repeat split.
  - destruct (body_skips _ _ _ Hg) as (evs & -> & Hevs).
    do 3 eexists. split; [reflexivity|]. left.
    induction Hevs as [|ev evs Hev _ IH]; [reflexivity|].
    destruct ev; try discriminate Hev; exact IH.
Qed.

(** X6. A cube is converted at most once in a pass of the body, and
    only past the three checks: the conversion is that of the geometry
    that construction returned for this cube, to the format and with the
    quantization of the configuration. *)
Theorem one_conversion_per_cube (cfg : Config) (p : string) (s : state) :
  exists r w' evs,
    loop_body X cfg p s = (r, {| world := w'; trace := trace s ++ evs |})
    /\ (length (conversions evs) <= 1)%nat
    /\ (forall g format quantize,
          In (g, format, quantize) (conversions evs) ->
          format = FORMAT cfg /\ quantize = QUANTIZE cfg
          /\ gates_pass X cfg (world s) p = true
          /\ exists w1, construct_call X p (world s) = (Ok g, w1)).
Proof.
  destruct (body_conversions cfg p s)
    as (r & w' & evs & Hrun & [Hc|(g & w1 & Hg & Hc & Hconv)]).
  - exists r, w', evs. rewrite Hc. split; [exact Hrun|]. split; [cbn; lia|].
    intros g f q [].
  - exists r, w', evs. rewrite Hconv. split; [exact Hrun|]. split; [cbn; lia|].
    intros g' f q [E|[]]. injection E as <- <- <-.
    repeat split; trivial. now exists w1.
Qed.

(** X7. A run makes no more conversions than there are paths in its
    list, and every one of them is to the format and with the quantization
    of the configuration. *)
Theorem conversions_bounded_by_paths (cfg : Config) (paths : list string) (s : state) :
  exists r w' evs,
    convert_cubes X cfg paths s
    = (r, {| world := w'; trace := trace s ++ evs |})
    /\ (length (conversions evs) <= length paths)%nat
    /\ Forall (fun c => snd (fst c) = FORMAT cfg /\ snd c = QUANTIZE cfg)
              (conversions evs).
Proof.
  revert s; induction paths as [|p paths IH]; intros s.
  - exists (Ok tt), (world s), []. repeat split; cbn; trivial.
    unfold convert_cubes, for_each, ret. now rewrite List.app_nil_r, state_eta.
  - rewrite convert_cubes_cons.
    destruct (body_conversions cfg p s) as (r & w' & evs & -> & Hc).
    assert (Hone : (length (conversions evs) <= 1)%nat
                   /\ Forall (fun c => snd (fst c) = FORMAT cfg
                                       /\ snd c = QUANTIZE cfg)
                             (conversions evs)).
    { destruct Hc as [->|(g & w1 & _ & _ & ->)]; cbn; split; try lia;
        repeat constructor. }
    destruct Hone as [Hlen Hfmt].
    destruct r as [[]|e].
    + destruct (IH {| world := w'; trace := trace s ++ evs |})
        as (r2 & w2 & evs2 & -> & Hlen2 & Hfmt2).
      exists r2, w2, (evs ++ evs2)%list. cbn [world trace].
      rewrite List.app_assoc, conversions_app, List.length_app.
      repeat split; [cbn [length]; lia|]. now apply Forall_app.
    + exists (Raise e), w', evs. repeat split; [cbn [length]; lia|exact Hfmt].
Qed.

Ltac each_event :=
  repeat (apply Forall_cons; [cbn; auto|]); apply Forall_nil.

Lemma body_names_cube (cfg : Config) (p : string) (s : state) :
  exists r w' evs,
    loop_body X cfg p s = (r, {| world := w'; trace := trace s ++ evs |})
    /\ Forall (names_cube X cfg p) evs.
Proof.
  destruct (source_present X (world s) p) eqn:H1;
    [destruct (kept_as_is X cfg (world s) p) eqn:H2;
     [|destruct (DRY_RUN cfg) eqn:H3]|].
  - rewrite (body_kept _ _ _ H1 H2). do 3 eexists. split; [reflexivity|].
    each_event.
  - rewrite (body_dry_run _ _ _ H1 H2 H3). do 3 eexists. split; [reflexivity|].
    each_event.
  - destruct (body_proceeds_detail _ _ _ H1 H2 H3)
      as (r & w' & tail & -> & Htail & _).
    do 3 eexists. split; [reflexivity|].
    apply Forall_app. split; [each_event|].
    apply Forall_app. split.
    + unfold banner. destruct (SHOW cfg); each_event.
    + constructor; [cbn; now repeat split|].
      eapply Forall_impl; [|exact Htail].
      intros ev Hev. destruct ev; try discriminate Hev; exact I.
  - rewrite (body_missing _ _ _ H1). do 3 eexists. split; [reflexivity|].
    each_event.
Qed.

(** X8. A run gives no path to the outside but the paths of its list and
    their converted paths: every existence check is about a listed cube or
    its converted path, and every construction is that of a listed cube,
    with the full post-stack headers and with statistics, spatial data and
    recollection asked for. *)
Theorem run_names_listed_cubes_only (cfg : Config) (paths : list string) (s : state) :
  exists r w' evs,
    convert_cubes X cfg paths s
    = (r, {| world := w'; trace := trace s ++ evs |})
    /\ Forall (fun ev => exists p, In p paths /\ names_cube X cfg p ev) evs.
Proof. apply loop_forall. intros p s'. apply body_names_cube. Qed.

Lemma body_quiet (cfg : Config) (p : string) (s : state) :
  SHOW cfg = false ->
  exists r w' evs,
    loop_body X cfg p s = (r, {| world := w'; trace := trace s ++ evs |})
    /\ Forall (quiet_for cfg p) evs.
Proof.
  intros Hshow. unfold quiet_for.
  destruct (source_present X (world s) p) eqn:H1;
    [destruct (kept_as_is X cfg (world s) p) eqn:H2;
     [|destruct (DRY_RUN cfg) eqn:H3]|].
  - rewrite (body_kept _ _ _ H1 H2). do 3 eexists. split; [reflexivity|].
    each_event.
  - rewrite (body_dry_run _ _ _ H1 H2 H3). do 3 eexists. split; [reflexivity|].
    each_event.
  - destruct (body_proceeds_detail _ _ _ H1 H2 H3)
      as (r & w' & tail & -> & _ & Htail & _).
    do 3 eexists. split; [reflexivity|].
    apply Forall_app. split; [each_event|].
    apply Forall_app. split.
    + unfold banner. rewrite Hshow. constructor.
    + constructor; [now left|].
      eapply Forall_impl; [|exact (Htail Hshow)].
      intros ev Hev. now left.
  - rewrite (body_missing _ _ _ H1). do 3 eexists. split; [reflexivity|].
    each_event.
Qed.

(** X9. Without [SHOW] a run shows nothing but the notices of the policy
    gate: every print is the skip notice or the dry-run report of a listed
    cube, and no diagnostics of the library is called. *)
Theorem quiet_run_shows_notices_only (cfg : Config) (paths : list string) (s : state) :
  SHOW cfg = false ->
  exists r w' evs,
    convert_cubes X cfg paths s
    = (r, {| world := w'; trace := trace s ++ evs |})
    /\ Forall (fun ev => exists p, In p paths /\ quiet_for cfg p ev) evs.
Proof.
  intros Hshow. apply loop_forall. intros p s'. now apply body_quiet.
Qed.

(** X10. What a dry run reports is what a real run would start: from the
    same state, the body under [DRY_RUN] prints the report for a cube
    exactly when the body without [DRY_RUN] calls construction for it. *)
Theorem dry_run_foretells_construction (cfg : Config) (p : string) (s : state) :
  exists r1 w1 evs_dry r2 w2 evs_real,
    loop_body X (with_dry_run true cfg) p s
    = (r1, {| world := w1; trace := trace s ++ evs_dry |})
    /\ loop_body X (with_dry_run false cfg) p s
       = (r2, {| world := w2; trace := trace s ++ evs_real |})
    /\ (In (dry_run_report p (path_converted cfg p)) evs_dry
        <-> In (construct_event X p) evs_real).
Proof.
  change (path_converted cfg p) with (path_converted (with_dry_run true cfg) p).
  destruct (source_present X (world s) p) eqn:H1;
    [destruct (kept_as_is X cfg (world s) p) eqn:H2|].
  - rewrite (body_kept (with_dry_run true cfg) _ _ H1 H2).
    rewrite (body_kept (with_dry_run false cfg) _ _ H1 H2).
    do 6 eexists. split; [reflexivity|]. split; [reflexivity|].
    split; intros [H|[H|[H|[]]]]; try discriminate H.
    symmetry in H. now apply report_is_not_notice in H.
  - rewrite (body_dry_run (with_dry_run true cfg) _ _ H1 H2 eq_refl).
    destruct (body_proceeds (with_dry_run false cfg) _ _ H1 H2 eq_refl)
      as (r & w' & tail & -> & _).
    do 6 eexists. split; [reflexivity|]. split; [reflexivity|].
    split; intros _.
    + apply in_or_app. right. apply in_or_app. right. now left.
    + right. right. now left.
  - rewrite (body_missing (with_dry_run true cfg) _ _ H1).
    rewrite (body_missing (with_dry_run false cfg) _ _ H1).
    do 6 eexists. split; [reflexivity|]. split; [reflexivity|].
    split; intros [H|[]]; discriminate H.
Qed.

(** X11. With [RECREATE] set and no dry run, a cube that is there always
    reaches construction: the existence of the converted path is still
    checked, and its answer changes nothing. *)
Theorem recreate_always_constructs (cfg : Config) (p : string) (s : state) :
  RECREATE cfg = true ->
  DRY_RUN cfg = false ->
  fs_exists X (world s) p = true ->
  exists r w' tail,
    loop_body X cfg p s
    = (r, {| world := w';
             trace := trace s ++ [EvExists p; EvExists (path_converted cfg p)]
                      ++ banner cfg p ++ construct_event X p :: tail |}).
Proof.
  intros Hrec Hdry Hsrc.
  assert (H2 : kept_as_is X cfg (world s) p = false)
    by (unfold kept_as_is; rewrite Hrec; apply andb_false_r).
  destruct (body_proceeds _ _ _ Hsrc H2 Hdry) as (r & w' & tail & H & _).
  now exists r, w', tail.
Qed.

(** A dry body: no call into the library, two existence checks at most. *)
Lemma gates_before_dry (cfg : Config) (p : string) (s : state) :
  DRY_RUN cfg = true ->
  exists evs,
    loop_body X cfg p s
    = (Ok tt, {| world := world s; trace := trace s ++ evs |})
    /\ Forall (fun ev : event => is_library_call ev = false) evs
    /\ (length (filter is_path_call evs) <= 2)%nat.
Proof.
  intros Hdry.
  destruct (source_present X (world s) p) eqn:H1;
    [destruct (kept_as_is X cfg (world s) p) eqn:H2|].
  - rewrite (body_kept _ _ _ H1 H2). eexists. split; [reflexivity|].
    split; [repeat constructor|cbn; lia].
  - rewrite (body_dry_run _ _ _ H1 H2 Hdry). eexists. split; [reflexivity|].
    split; [repeat constructor|cbn; lia].
  - rewrite (body_missing _ _ _ H1). eexists. split; [reflexivity|].
    split; [repeat constructor|cbn; lia].
Qed.

(** The diagnostics block makes no conversion. *)
Lemma diagnostics_no_conversion (g : Geometry) (s : state) :
  exists r w' evs,
    diagnostics X g s = (r, {| world := w'; trace := trace s ++ evs |})
    /\ conversions evs = [].
Proof.
  run_body. repeat next_call;
    do 3 eexists; (split; [tidy_trace; reflexivity|reflexivity]).
Qed.

(** X12. With [SHOW] set, a diagnostics call that raises between the
    quality map and the conversion ends the run with its exception: the
    cube is not converted and the cubes that remain are not looked at. *)
Theorem failing_diagnostics_stop_before_conversion
        (cfg : Config) (p : string) (rest : list string) (s : state)
        (g : Geometry) (w1 : W) (qm : QMap) (w2 : W) (e : Exn) (s3 : state) :
  SHOW cfg = true ->
  gates_pass X cfg (world s) p = true ->
  construct_call X p (world s) = (Ok g, w1) ->
  quality_map X g w1 = (Ok qm, w2) ->
  diagnostics X g
    {| world := w2;
       trace := trace s ++ [EvExists p; EvExists (path_converted cfg p)]
                ++ banner cfg p ++ [construct_event X p; EvQualityMap g] |}
  = (Raise e, s3) ->
  convert_cubes X cfg (p :: rest) s = (Raise e, s3)
  /\ exists evs, trace s3 = (trace s ++ evs)%list /\ conversions evs = [].
Proof.
  intros Hshow Hg Hc Hq Hd.
  unfold gates_pass in Hg.
  apply andb_prop in Hg as [Hg H3]. apply andb_prop in Hg as [H1 H2].
  apply negb_true_iff in H2, H3.
  split.
  - rewrite convert_cubes_cons.
    assert (Hbody : loop_body X cfg p s = (Raise e, s3)).
    { revert Hd. run_body. rewrite H1. cbn [negb world trace].
      rewrite H2, H3, Hshow. unfold banner. rewrite Hshow.
      cbn [world trace]. rewrite Hc. cbn [world trace]. rewrite Hq.
      cbn [world trace].
      do 5 (next_call;
            [|intros Hd; injection Hd as <- <-; tidy_trace; reflexivity]).
      intros Hd. discriminate Hd. }
    now rewrite Hbody.
  - destruct (diagnostics_no_conversion g
                {| world := w2;
                   trace := trace s ++ [EvExists p; EvExists (path_converted cfg p)]
                            ++ banner cfg p
                            ++ [construct_event X p; EvQualityMap g] |})
      as (r & w' & evs & Hrun & Hconv).
    rewrite Hrun in Hd. injection Hd as _ <-. cbn [world trace].
    eexists. split; [rewrite <- !List.app_assoc; reflexivity|].
    rewrite conversions_app, Hconv, List.app_nil_r.
    change (conversions (banner cfg p ++ [construct_event X p; EvQualityMap g]) = []).
    rewrite conversions_app, conversions_banner. reflexivity.
Qed.

(** X13. With [SHOW] set, a failure of the print that follows the
    conversion ends the run with its exception after the cube has been
    converted: the world is the one the conversion and the failed print
    left, and the cubes that remain are not looked at. *)
Theorem failing_print_after_conversion
        (cfg : Config) (p : string) (rest : list string) (s : state)
        (g : Geometry) (w1 : W) (qm : QMap) (w2 : W) (s3 : state)
        (g' : Geometry) (w4 : W) (e : Exn) (w5 : W) :
  SHOW cfg = true ->
  gates_pass X cfg (world s) p = true ->
  construct_call X p (world s) = (Ok g, w1) ->
  quality_map X g w1 = (Ok qm, w2) ->
  diagnostics X g
    {| world := w2;
       trace := trace s ++ [EvExists p; EvExists (path_converted cfg p)]
                ++ banner cfg p ++ [construct_event X p; EvQualityMap g] |}
  = (Ok tt, s3) ->
  convert X g (FORMAT cfg) (QUANTIZE cfg) (world s3) = (Ok g', w4) ->
  geometry_print X g' w4 = (Raise e, w5) ->
  convert_cubes X cfg (p :: rest) s
  = (Raise e,
     {| world := w5;
        trace := trace s3 ++ [EvConvert g (FORMAT cfg) (QUANTIZE cfg);
                              EvGeometryPrint g'] |}).
Proof.
  intros Hshow Hg Hc Hq Hd Hv Hp.
  unfold gates_pass in Hg.
  apply andb_prop in Hg as [Hg H3]. apply andb_prop in Hg as [H1 H2].
  apply negb_true_iff in H2, H3.
  rewrite convert_cubes_cons.
  assert (Hbody : loop_body X cfg p s
                  = (Raise e,
                     {| world := w5;
                        trace := trace s3 ++
                                 [EvConvert g (FORMAT cfg) (QUANTIZE cfg);
                                  EvGeometryPrint g'] |})).
  { revert Hd Hv. run_body. rewrite H1. cbn [negb world trace].
    rewrite H2, H3, Hshow. unfold banner. rewrite Hshow.
    cbn [world trace]. rewrite Hc. cbn [world trace]. rewrite Hq.
    cbn [world trace].
    do 5 (next_call; [|intros Hd; discriminate Hd]).
    intros Hd Hv. injection Hd as -> <-. cbn [world trace] in Hv.
    rewrite Hv. cbn [world trace]. rewrite Hp. tidy_trace. reflexivity. }
  now rewrite Hbody.
Qed.

(** *** The notebook as a whole *)

Lemma discover_runs (pattern : string) (s : state) :
  discover X pattern s
  = (Ok (sorted (fs_glob X (world s) pattern)),
     {| world := world s;
        trace := trace s ++
                 EvGlob pattern ::
                 map (fun path => EvPrint (path ++ PyStr.nl))
                     (sorted (fs_glob X (world s) pattern)) |}).
Proof.
  unfold discover, bind at 1, glob, log. unfold bind. rewrite print_each.
  unfold ret. cbn [world trace]. now rewrite app_one.
Qed.

(** X14. The notebook run from its first cell in a dry run ends
    normally and leaves the world as it found it: it reads the filesystem
    with one [glob] and with existence checks, prints, and calls nothing
    of the library. *)
Theorem notebook_dry_run_is_harmless (cfg : Config) (pattern : string) (s : state) :
  DRY_RUN cfg = true ->
  exists evs,
    notebook X cfg pattern s
    = (Ok tt, {| world := world s; trace := trace s ++ evs |})
    /\ Forall (fun ev : event => is_library_call ev = false) evs
    /\ (length (filter is_path_call evs)
        <= 1 + 2 * length (fs_glob X (world s) pattern))%nat.
Proof.
  intros Hdry. unfold notebook, bind. rewrite discover_runs.
  set (paths := sorted (fs_glob X (world s) pattern)).
  assert (Hlen : length paths = length (fs_glob X (world s) pattern))
    by (symmetry; apply Permutation_length, SortedFacts.sorted_perm).
  rewrite <- Hlen. clearbody paths.
  set (s1 := {| world := world s;
                trace := trace s ++ EvGlob pattern ::
                         map (fun path => EvPrint (path ++ PyStr.nl)) paths |}).
  assert (Hloop : forall l (s' : state), exists evs,
             convert_cubes X cfg l s'
             = (Ok tt, {| world := world s'; trace := trace s' ++ evs |})
             /\ Forall (fun ev : event => is_library_call ev = false) evs
             /\ (length (filter is_path_call evs) <= 2 * length l)%nat).
  { induction l as [|p l IH]; intros s'.
    - exists []. repeat split; [|constructor|cbn; lia].
      unfold convert_cubes, for_each, ret. now rewrite List.app_nil_r, state_eta.
    - rewrite convert_cubes_cons.
      destruct (gates_before_dry cfg p s' Hdry) as (evs1 & -> & H1 & L1).
      destruct (IH {| world := world s'; trace := trace s' ++ evs1 |})
        as (evs2 & -> & H2 & L2).
      exists (evs1 ++ evs2)%list. cbn [world trace].
      rewrite List.app_assoc. split; [reflexivity|]. split.
      + apply Forall_app; now split.
      + rewrite filter_app, List.length_app. cbn [length]. lia. }
  destruct (Hloop paths s1) as (evs & -> & Hlib & Hcount).
  exists (EvGlob pattern :: map (fun path => EvPrint (path ++ PyStr.nl)) paths ++ evs)%list.
  subst s1. cbn [world trace]. split; [|split].
  - now rewrite <- List.app_assoc.
  - constructor; [reflexivity|]. apply Forall_app. split; [|exact Hlib].
    clear. induction paths; constructor; auto.
  - cbn [filter is_path_call length]. rewrite filter_app, List.length_app.
    assert (Hprints : filter is_path_call
                        (map (fun path => EvPrint (path ++ PyStr.nl)) paths : list event)
                      = []) by (clear; induction paths; auto).
    rewrite Hprints. cbn [length]. lia.
Qed.

(** *** Runs that end normally *)

Ltac next_call_eq :=
  match goal with
  | |- context [let (_, _) := ?t in _] =>
      lazymatch t with
      | context [let (_, _) := _ in _] => fail
      | _ => destruct t as [[?|?] ?] eqn:?; cbn [world trace]
      end
  end.

(** X15. A body that passes the three checks and ends normally has
    converted its cube: construction returned a geometry, the conversion
    of that geometry to the configured format returned as well, and the
    call is in the trace.  Without [SHOW] the conversion is the last call,
    and the world at the end is the one it left. *)
Theorem normal_end_means_converted
        (cfg : Config) (p : string) (s s' : state) :
  gates_pass X cfg (world s) p = true ->
  loop_body X cfg p s = (Ok tt, s') ->
  exists g w1 w g' w',
    construct_call X p (world s) = (Ok g, w1)
    /\ convert X g (FORMAT cfg) (QUANTIZE cfg) w = (Ok g', w')
    /\ In (EvConvert g (FORMAT cfg) (QUANTIZE cfg)) (trace s')
    /\ (SHOW cfg = false -> world s' = w').
Proof.
  unfold gates_pass. intros Hg.
  apply andb_prop in Hg as [Hg H3]. apply andb_prop in Hg as [H1 H2].
  apply negb_true_iff in H2, H3.
  run_body. rewrite H1. cbn [negb world trace]. rewrite H2, H3.
  destruct (SHOW cfg); cbn [world trace];
    repeat next_call_eq; intros H; try discriminate H;
    injection H as <-; do 5 eexists; cbn [world trace];
    (split; [reflexivity|]); (split; [eassumption|]);
    (split; [|intros Hs; first [discriminate Hs | reflexivity]]);
    tidy_trace; apply in_or_app; right; cbn; auto 20.
Qed.

Lemma body_first_check (cfg : Config) (p : string) (s : state) :
  exists r w' rest,
    loop_body X cfg p s
    = (r, {| world := w'; trace := trace s ++ EvExists p :: rest |}).
Proof.
  destruct (source_present X (world s) p) eqn:H1;
    [destruct (kept_as_is X cfg (world s) p) eqn:H2;
     [|destruct (DRY_RUN cfg) eqn:H3]|].
  - rewrite (body_kept _ _ _ H1 H2). now do 3 eexists.
  - rewrite (body_dry_run _ _ _ H1 H2 H3). now do 3 eexists.
  - destruct (body_proceeds _ _ _ H1 H2 H3) as (r & w' & tail & -> & _).
    now do 3 eexists.
  - rewrite (body_missing _ _ _ H1). now do 3 eexists.
Qed.

(** X16. A run that ends normally has looked at every cube of its list:
    for each path of the list there is an existence check of that path
    among the events of the run. *)
Theorem normal_run_checks_every_cube
        (cfg : Config) (paths : list string) (s s' : state) :
  convert_cubes X cfg paths s = (Ok tt, s') ->
  exists evs,
    trace s' = (trace s ++ evs)%list
    /\ Forall (fun p => In (EvExists p) evs) paths.
Proof.
  revert s; induction paths as [|p paths IH]; intros s Hrun.
  - exists []. split; [|constructor].
    unfold convert_cubes, for_each, ret in Hrun. injection Hrun as <-.
    now rewrite List.app_nil_r.
  - rewrite convert_cubes_cons in Hrun.
    destruct (body_first_check cfg p s) as (r & w' & rest & Hb).
    rewrite Hb in Hrun. destruct r as [[]|e]; [|discriminate Hrun].
    destruct (IH _ Hrun) as (evs & -> & Hall). cbn [trace].
    exists (EvExists p :: rest ++ evs)%list. split.
    + now rewrite <- List.app_assoc.
    + constructor; [now left|].
      eapply Forall_impl; [|exact Hall].
      intros q Hq. right. apply in_or_app. now right.
Qed.

End DriverFacts.

(** * The notebook on the small machine *)

Module Runs.
Import Sample.

(** [os.path.splitext] on a few shapes of path. *)
Example splitext_cube :
  OsPath.splitext "/data/CUBE_1/amplitudes_01.sgy"
  = ("/data/CUBE_1/amplitudes_01", ".sgy").
Proof. reflexivity. Qed.

Example splitext_hidden : OsPath.splitext "/d/.bashrc" = ("/d/.bashrc", "").
Proof. reflexivity. Qed.

Example splitext_dotted_directory : OsPath.splitext "/d.x/cube" = ("/d.x/cube", "").
Proof. reflexivity. Qed.

Example splitext_last_dot : OsPath.splitext "a.tar.gz" = ("a.tar", ".gz").
Proof. reflexivity. Qed.

Example path_converted_notebook :
  path_converted notebook_config "/data/CUBE_1/amplitudes_01.sgy"
  = "/data/CUBE_1/amplitudes_01.qblosc".
Proof. reflexivity. Qed.

Example sorted_paths :
  sorted ["/d/CUBE_2/amplitudes.sgy"; "/d/CUBE_10/amplitudes.sgy";
          "/d/CUBE_1/amplitudes.segy"]
  = ["/d/CUBE_1/amplitudes.segy"; "/d/CUBE_10/amplitudes.sgy";
     "/d/CUBE_2/amplitudes.sgy"].
Proof. reflexivity. Qed.

(** The converted file is there and [RECREATE] is off: the notice, no
    call into the library. *)
Example run_keeps_converted :
  convert_cubes library quiet_config ["/d/a.sgy"]
                (start ["/d/a.sgy"; "/d/a.hdf5"])
  = (Ok tt,
     {| world := ["/d/a.sgy"; "/d/a.hdf5"];
        trace := [EvExists "/d/a.sgy"; EvExists "/d/a.hdf5";
                  skip_notice "/d/a.hdf5"] |}).
Proof. reflexivity. Qed.

(** The same with [RECREATE] on: construction, quality map, conversion. *)
Example run_recreates :
  convert_cubes library
                {| RECREATE := true; FORMAT := "hdf5"; QUANTIZE := false;
                   SHOW := false; DRY_RUN := false |}
                ["/d/a.sgy"] (start ["/d/a.sgy"; "/d/a.hdf5"])
  = (Ok tt,
     {| world := ["/d/a.hdf5"; "/d/a.sgy.meta"; "/d/a.sgy"; "/d/a.hdf5"];
        trace := [EvExists "/d/a.sgy"; EvExists "/d/a.hdf5";
                  construct_event library "/d/a.sgy";
                  EvQualityMap "/d/a.sgy";
                  EvConvert "/d/a.sgy" "hdf5" false] |}).
Proof. reflexivity. Qed.

(** A dry run on a cube not yet converted: the report, nothing else. *)
Example run_dry :
  convert_cubes library dry_config ["/d/a.sgy"] (start ["/d/a.sgy"])
  = (Ok tt,
     {| world := ["/d/a.sgy"];
        trace := [EvExists "/d/a.sgy"; EvExists "/d/a.hdf5";
                  dry_run_report "/d/a.sgy" "/d/a.hdf5"] |}).
Proof. reflexivity. Qed.

Lemma library_only_shows : diagnostics_side_effect_only library.
Proof. repeat split. Qed.

End Runs.

(** ** The theorems at work *)

Lemma dry_run_calls_nothing_witness :
  DRY_RUN Sample.dry_config = true
  /\ exists evs,
       convert_cubes Sample.library Sample.dry_config ["/d/a.sgy"; "/d/b.sgy"]
                     (Sample.start ["/d/a.sgy"; "/d/b.sgy"; "/d/b.hdf5"])
       = (Ok tt, {| world := ["/d/a.sgy"; "/d/b.sgy"; "/d/b.hdf5"];
                    trace := [] ++ evs |})
       /\ Forall (fun ev => is_library_call ev = false) evs.
Proof.
  split; [reflexivity|].
  exact (proj2 (dry_run_calls_nothing Sample.library Sample.dry_config eq_refl)
               ["/d/a.sgy"; "/d/b.sgy"]
               (Sample.start ["/d/a.sgy"; "/d/b.sgy"; "/d/b.hdf5"])).
Defined.

(** The claim C3 promises a skip notice whenever the converted file is
    there and [RECREATE] is off.  Here the converted file is there and the
    cube is not: the body stops at the first check and prints nothing. *)
Lemma kept_notice_needs_source :
  fs_exists Sample.library ["/d/a.hdf5"]
            (path_converted Sample.quiet_config "/d/a.sgy") = true
  /\ RECREATE Sample.quiet_config = false
  /\ loop_body Sample.library Sample.quiet_config "/d/a.sgy"
               (Sample.start ["/d/a.hdf5"])
     = (Ok tt, {| world := ["/d/a.hdf5"]; trace := [EvExists "/d/a.sgy"] |})
  /\ ~ In (skip_notice (path_converted Sample.quiet_config "/d/a.sgy"))
          (trace (snd (loop_body Sample.library Sample.quiet_config "/d/a.sgy"
                                 (Sample.start ["/d/a.hdf5"])))).
Proof.
  repeat split. intros [H|[]]. discriminate H.
Qed.

Lemma kept_artifact_is_not_touched_witness :
  fs_exists Sample.library ["/d/a.sgy"; "/d/a.hdf5"]
            (path_converted Sample.quiet_config "/d/a.sgy") = true
  /\ RECREATE Sample.quiet_config = false
  /\ loop_body Sample.library Sample.quiet_config "/d/a.sgy"
            (Sample.start ["/d/a.sgy"; "/d/a.hdf5"])
  = (Ok tt,
     {| world := ["/d/a.sgy"; "/d/a.hdf5"];
        trace := [EvExists "/d/a.sgy"; EvExists "/d/a.hdf5";
                  skip_notice "/d/a.hdf5"] |}).
Proof.
  split; [reflexivity|]. split; [reflexivity|].
  exact (proj1 (kept_artifact_is_not_touched
                  Sample.library Sample.quiet_config "/d/a.sgy"
                  (Sample.start ["/d/a.sgy"; "/d/a.hdf5"]) eq_refl eq_refl)).
Defined.

Lemma missing_cube_skipped_silently_witness :
  fs_exists Sample.library ["/d/b.sgy"] "/d/a.sgy" = false
  /\ loop_body Sample.library notebook_config "/d/a.sgy" (Sample.start ["/d/b.sgy"])
     = (Ok tt, {| world := ["/d/b.sgy"]; trace := [EvExists "/d/a.sgy"] |}).
Proof.
  split; [reflexivity|].
  exact (proj1 (missing_cube_skipped_silently
                  Sample.library notebook_config "/d/a.sgy" ["/d/b.sgy"]
                  (Sample.start ["/d/b.sgy"]) eq_refl)).
Defined.

Lemma show_changes_nothing_but_display_witness :
  diagnostics_side_effect_only Sample.library
  /\ fst (convert_cubes Sample.library (with_show true notebook_config)
                        ["/d/a.sgy"] (Sample.start ["/d/a.sgy"]))
     = fst (convert_cubes Sample.library (with_show false notebook_config)
                          ["/d/a.sgy"] (Sample.start ["/d/a.sgy"]))
  /\ world (snd (convert_cubes Sample.library (with_show true notebook_config)
                               ["/d/a.sgy"] (Sample.start ["/d/a.sgy"])))
     = world (snd (convert_cubes Sample.library (with_show false notebook_config)
                                 ["/d/a.sgy"] (Sample.start ["/d/a.sgy"]))).
Proof.
  split; [exact Runs.library_only_shows|].
  pose proof (show_changes_nothing_but_display
                Sample.library notebook_config ["/d/a.sgy"]
                (Sample.start ["/d/a.sgy"]) Runs.library_only_shows) as H.
  split; [exact (proj1 H)|exact (proj1 (proj2 H))].
Defined.

(** A cube that cannot be read, then a disk that is full: the run ends at
    the first cube with the exception of the library, the second cube is
    never checked, and what the failed call left is still there. *)
Lemma exceptions_abort_the_run_witness :
  convert_cubes Sample.corrupt_library Sample.quiet_config
                ["/d/a.sgy"; "/d/b.sgy"] (Sample.start ["/d/a.sgy"; "/d/b.sgy"])
  = (Raise "corrupt SEG-Y",
     {| world := ["/d/a.sgy"; "/d/b.sgy"];
        trace := [EvExists "/d/a.sgy"; EvExists "/d/a.hdf5";
                  construct_event Sample.corrupt_library "/d/a.sgy"] |})
  /\
  convert_cubes Sample.full_disk_library Sample.quiet_config
                ["/d/a.sgy"; "/d/b.sgy"] (Sample.start ["/d/a.sgy"; "/d/b.sgy"])
  = (Raise "No space left on device",
     {| world := ["/d/a.hdf5.part"; "/d/a.sgy.meta"; "/d/a.sgy"; "/d/b.sgy"];
        trace := [EvExists "/d/a.sgy"; EvExists "/d/a.hdf5";
                  construct_event Sample.full_disk_library "/d/a.sgy";
                  EvQualityMap "/d/a.sgy";
                  EvConvert "/d/a.sgy" "hdf5" false] |}).
Proof.
  split.
  - pose proof (exceptions_abort_the_run
                  Sample.corrupt_library Sample.quiet_config [] "/d/a.sgy"
                  ["/d/b.sgy"] (Sample.start ["/d/a.sgy"; "/d/b.sgy"])
                  (Sample.start ["/d/a.sgy"; "/d/b.sgy"]) eq_refl)
      as (Hloop & Hconstruct & _).
    apply (Hloop "corrupt SEG-Y").
    exact (Hconstruct eq_refl "corrupt SEG-Y" ["/d/a.sgy"; "/d/b.sgy"] eq_refl).
  - pose proof (exceptions_abort_the_run
                  Sample.full_disk_library Sample.quiet_config [] "/d/a.sgy"
                  ["/d/b.sgy"] (Sample.start ["/d/a.sgy"; "/d/b.sgy"])
                  (Sample.start ["/d/a.sgy"; "/d/b.sgy"]) eq_refl)
      as (Hloop & _ & Hconvert).
    apply (Hloop "No space left on device").
    exact (Hconvert eq_refl "/d/a.sgy"
                    ["/d/a.sgy.meta"; "/d/a.sgy"; "/d/b.sgy"] tt
                    ["/d/a.sgy.meta"; "/d/a.sgy"; "/d/b.sgy"]
                    {| world := ["/d/a.sgy.meta"; "/d/a.sgy"; "/d/b.sgy"];
                       trace := [EvExists "/d/a.sgy"; EvExists "/d/a.hdf5";
                                 construct_event Sample.full_disk_library "/d/a.sgy";
                                 EvQualityMap "/d/a.sgy"] |}
                    "No space left on device"
                    ["/d/a.hdf5.part"; "/d/a.sgy.meta"; "/d/a.sgy"; "/d/b.sgy"]
                    eq_refl eq_refl eq_refl eq_refl).
Defined.

Lemma discovery_sorted_witness :
  fs_glob Sample.library ["/home/notes.txt"] notebook_pattern = []
  /\ notebook Sample.library notebook_config notebook_pattern
              (Sample.start ["/home/notes.txt"])
     = (Ok tt, {| world := ["/home/notes.txt"];
                  trace := [EvGlob notebook_pattern] |}).
Proof.
  split; [reflexivity|].
  pose proof (discovery_sorted Sample.library notebook_config notebook_pattern
                               (Sample.start ["/home/notes.txt"]))
    as (_ & _ & _ & _ & Hempty).
  exact (proj2 (Hempty eq_refl)).
Defined.

Lemma quality_map_always_computed_witness :
  SHOW Sample.quiet_config = false
  /\ exists r w' tail,
       loop_body Sample.library Sample.quiet_config "/d/a.sgy"
                 (Sample.start ["/d/a.sgy"])
       = (r, {| world := w';
                trace := [EvExists "/d/a.sgy"; EvExists "/d/a.hdf5";
                          construct_event Sample.library "/d/a.sgy";
                          EvQualityMap "/d/a.sgy"] ++ tail |}).
Proof.
  split; [reflexivity|].
  destruct (quality_map_always_computed
              Sample.library Sample.quiet_config "/d/a.sgy"
              (Sample.start ["/d/a.sgy"]) "/d/a.sgy"
              ["/d/a.sgy.meta"; "/d/a.sgy"] eq_refl eq_refl eq_refl eq_refl)
    as (r & w' & tail & H & _).
  exists r, w', tail. exact H.
Defined.

(** The claim C10 promises the skip notice in a dry run whenever the
    converted file is there and [RECREATE] is off.  With the cube gone the
    body stops at the first check: neither notice is printed. *)
Lemma dry_run_notice_needs_source :
  DRY_RUN Sample.dry_config = true
  /\ fs_exists Sample.library ["/d/a.hdf5"]
               (path_converted Sample.dry_config "/d/a.sgy") = true
  /\ RECREATE Sample.dry_config = false
  /\ loop_body Sample.library Sample.dry_config "/d/a.sgy"
               (Sample.start ["/d/a.hdf5"])
     = (Ok tt, {| world := ["/d/a.hdf5"]; trace := [EvExists "/d/a.sgy"] |})
  /\ ~ In (skip_notice (path_converted Sample.dry_config "/d/a.sgy"))
          (trace (snd (loop_body Sample.library Sample.dry_config "/d/a.sgy"
                                 (Sample.start ["/d/a.hdf5"])))).
Proof.
  repeat split. intros [H|[]]. discriminate H.
Qed.

Lemma recreate_gate_before_dry_run_witness :
  exists r w' evs,
    loop_body Sample.library Sample.dry_config "/d/a.sgy"
              (Sample.start ["/d/a.sgy"; "/d/a.hdf5"])
    = (r, {| world := w'; trace := [] ++ evs |})
    /\ r = Ok tt /\ w' = ["/d/a.sgy"; "/d/a.hdf5"]
    /\ evs = [EvExists "/d/a.sgy"; EvExists "/d/a.hdf5"; skip_notice "/d/a.hdf5"]
    /\ ~ In (dry_run_report "/d/a.sgy" "/d/a.hdf5") evs.
Proof.
  destruct (recreate_gate_before_dry_run
              Sample.library Sample.dry_config "/d/a.sgy"
              (Sample.start ["/d/a.sgy"; "/d/a.hdf5"]))
    as (r & w' & evs & Hrun & Hkept & _).
  exists r, w', evs. split; [exact Hrun|].
  exact (Hkept eq_refl eq_refl eq_refl eq_refl).
Defined.

(** * More on the converted path *)

Module PathFacts.
Import PyStr OsPath PyStrFacts OsPathFacts.



Lemma rfind_upper (c : ascii) (p : string) : rfind c p < Z.of_nat (String.length p).
Proof.
  induction p as [|a p IH]; simpl String.length; simpl rfind; [lia|].
  destruct (0 <=? rfind c p); [lia|]. destruct (Ascii.eqb a c); lia.
Qed.

Lemma rfind_app (c : ascii) (a b : string) :
  rfind c (a ++ b)
  = if 0 <=? rfind c b then Z.of_nat (String.length a) + rfind c b else rfind c a.
Proof.
  induction a as [|x a IH].
  - simpl. destruct (0 <=? rfind c b) eqn:E; [lia|].
    apply Z.leb_gt in E. now apply rfind_absent.
  - cbn [append rfind String.length]. rewrite IH.
    destruct (0 <=? rfind c b) eqn:E; [|reflexivity].
    apply Z.leb_le in E.
    replace (0 <=? Z.of_nat (String.length a) + rfind c b) with true
      by (symmetry; apply Z.leb_le; lia).
    lia.
Qed.

Lemma chars_app (a b : string) :
  list_ascii_of_string (a ++ b)
  = (list_ascii_of_string a ++ list_ascii_of_string b)%list.
Proof. induction a as [|x a IH]; simpl; congruence. Qed.

Lemma chars_length (a : string) :
  List.length (list_ascii_of_string a) = String.length a.
Proof. induction a as [|x a IH]; simpl; congruence. Qed.

Lemma take_app_le (n : nat) (a b : string) :
  (n <= String.length a)%nat -> take n (a ++ b) = take n a.
Proof.
  revert a; induction n as [|n IH]; intros [|x a] H; simpl in *; trivial; try lia.
  f_equal. apply IH. lia.
Qed.

Lemma drop_app_le (n : nat) (a b : string) :
  (n <= String.length a)%nat -> drop n (a ++ b) = drop n a ++ b.
Proof.
  revert a; induction n as [|n IH]; intros [|x a] H; simpl in *; trivial; try lia.
  apply IH. lia.
Qed.

Lemma take_all (a : string) : take (String.length a) a = a.
Proof. induction a as [|x a IH]; simpl; congruence. Qed.

Lemma drop_all (a : string) : drop (String.length a) a = "".
Proof. induction a as [|x a IH]; simpl; congruence. Qed.

Lemma drop_length (n : nat) (p : string) :
  String.length (drop n p) = (String.length p - n)%nat.
Proof. revert p; induction n as [|n IH]; intros [|x p]; simpl; trivial. Qed.

Lemma drop_succ (n : nat) (p : string) (c : ascii) (rest : string) :
  drop n p = String c rest -> drop (S n) p = rest.
Proof.
  revert p; induction n as [|n IH]; intros [|x p] H.
  - discriminate H.
  - simpl in *. congruence.
  - discriminate H.
  - apply (IH p). exact H.
Qed.

(** The loop over the leading dots finds a character of the name exactly
    when there is one in the stretch it walks. *)
Lemma skip_leading_dots_spec (p : string) (i : Z) (n : nat) :
  0 <= i -> (Z.to_nat i + n <= String.length p)%nat ->
  skip_leading_dots p i n
  = has_name_char (take n (drop (Z.to_nat i) p)).
Proof.
  revert i; induction n as [|n IH]; intros i Hi Hn; [reflexivity|].
  cbn [skip_leading_dots]. unfold slice1, slice_from.
  pose proof (drop_length (Z.to_nat i) p) as Hl.
  destruct (drop (Z.to_nat i) p) as [|c rest] eqn:Hd; [simpl in Hl; lia|].
  cbn [take]. unfold has_name_char. cbn [list_ascii_of_string existsb].
  rewrite IH by lia.
  replace (Z.to_nat (i + 1)) with (S (Z.to_nat i)) by lia.
  rewrite (drop_succ _ _ _ _ Hd). unfold has_name_char.
  change (String.eqb (String c "") (String extsep ""))
    with (if Ascii.eqb c extsep then true else false).
  destruct (Ascii.eqb c extsep); reflexivity.
Qed.

Lemma drop_take (a b : nat) (p : string) :
  drop a (take b p) = take (b - a) (drop a p).
Proof.
  revert b p; induction a as [|a IH]; intros b p.
  - simpl. now rewrite Nat.sub_0_r.
  - destruct b as [|b]; destruct p as [|x p]; simpl; trivial;
      first [apply IH | now destruct (b - a)%nat].
Qed.

Lemma path_converted_unfold (cfg : Config) (p : string) :
  path_converted cfg p = fst (splitext p) ++ "." ++ tag cfg.
Proof. reflexivity. Qed.

Lemma no_sep_in_extension (ext : string) :
  is_extension ext -> rfind sep ext = -1.
Proof.
  intros [->|(e & -> & _ & He)]; [reflexivity|].
  apply rfind_none. intros [H|H]; [discriminate H|contradiction].
Qed.

Lemma no_sep_in_tag (cfg : Config) :
  ~ In sep (list_ascii_of_string (FORMAT cfg)) ->
  rfind sep ("." ++ tag cfg) = -1.
Proof.
  intros H. apply rfind_none. unfold tag.
  destruct (QUANTIZE cfg); cbn; intros [E|E]; try discriminate E.
  - destruct E as [E|E]; [discriminate E|contradiction].
  - contradiction.
Qed.

Lemma sep_of_root (p : string) : rfind sep (fst (splitext p)) = rfind sep p.
Proof.
  rewrite <- (splitext_join p) at 2. rewrite rfind_app.
  now rewrite (no_sep_in_extension _ (splitext_extension p)).
Qed.

Lemma sep_of_converted (cfg : Config) (p : string) :
  ~ In sep (list_ascii_of_string (FORMAT cfg)) ->
  rfind sep (path_converted cfg p) = rfind sep p.
Proof.
  intros H. rewrite path_converted_unfold, rfind_app, (no_sep_in_tag cfg H).
  apply sep_of_root.
Qed.

Lemma sep_within (p : string) :
  (Z.to_nat (rfind sep p + 1) <= String.length p)%nat.
Proof. pose proof (rfind_upper sep p). pose proof (rfind_lower sep p). lia. Qed.

(** The name of a path is the name of its root followed by its
    extension. *)
Lemma basename_of_root (p : string) :
  basename p = basename (fst (splitext p)) ++ snd (splitext p).
Proof.
  unfold basename, slice_from. rewrite sep_of_root.
  rewrite <- drop_app_le
    by (rewrite <- sep_of_root; apply sep_within).
  now rewrite splitext_join.
Qed.

Lemma has_name_char_app (a b : string) :
  has_name_char (a ++ b) = has_name_char a || has_name_char b.
Proof. unfold has_name_char. now rewrite chars_app, existsb_app. Qed.

Lemma extension_has_no_name_char_or_root_has (p : string) :
  has_name_char (basename p) = true ->
  has_name_char (basename (fst (splitext p))) = true.
Proof.
  intros H. unfold splitext in *.
  destruct (rfind sep p <? rfind extsep p) eqn:E1; cbn [andb]; [|exact H].
  destruct (skip_leading_dots p (rfind sep p + 1)
              (Z.to_nat (rfind extsep p - (rfind sep p + 1)))) eqn:E2;
    cbn [fst]; [|exact H].
  apply Z.ltb_lt in E1.
  pose proof (rfind_lower sep p) as Hl. pose proof (rfind_upper extsep p) as Hu.
  rewrite skip_leading_dots_spec in E2 by lia.
  assert (Hs : rfind sep (slice_to p (rfind extsep p)) = rfind sep p).
  { pose proof (sep_of_root p) as Hr. unfold splitext in Hr.
    replace (rfind sep p <? rfind extsep p) with true in Hr
      by (symmetry; apply Z.ltb_lt; lia).
    rewrite skip_leading_dots_spec in Hr by lia. rewrite E2 in Hr. exact Hr. }
  unfold basename, slice_from. rewrite Hs. unfold slice_to. rewrite drop_take.
  replace (Z.to_nat (rfind extsep p) - Z.to_nat (rfind sep p + 1))%nat
    with (Z.to_nat (rfind extsep p - (rfind sep p + 1))) by lia.
  exact E2.
Qed.

End PathFacts.



(** X3. When the name of the format has no slash, the converted file lies
    in the directory of the cube, and its name is the name of the cube with
    the dot and the tag in place of the extension. *)
Theorem converted_path_same_directory (cfg : Config) (p : string) :
  ~ In OsPath.sep (list_ascii_of_string (FORMAT cfg)) ->
  directory (path_converted cfg p) = directory p
  /\ basename p = basename (fst (OsPath.splitext p)) ++ snd (OsPath.splitext p)
  /\ basename (path_converted cfg p)
     = basename (fst (OsPath.splitext p)) ++ "." ++ tag cfg.
Proof.
  intros H. split; [|split].
  - unfold directory. rewrite (PathFacts.sep_of_converted cfg p H).
    rewrite PathFacts.path_converted_unfold. unfold PyStr.slice_to.
    assert (Hin : (Z.to_nat (PyStr.rfind OsPath.sep p + 1)
                   <= String.length (fst (OsPath.splitext p)))%nat)
      by (rewrite <- PathFacts.sep_of_root; apply PathFacts.sep_within).
    rewrite (PathFacts.take_app_le _ _ _ Hin).
    rewrite <- (PathFacts.take_app_le _ _ (snd (OsPath.splitext p)) Hin).
    now rewrite OsPathFacts.splitext_join.
  - apply PathFacts.basename_of_root.
  - unfold basename. rewrite (PathFacts.sep_of_converted cfg p H).
    rewrite PathFacts.path_converted_unfold. unfold PyStr.slice_from.
    rewrite <- PathFacts.sep_of_root.
    apply PathFacts.drop_app_le. apply PathFacts.sep_within.
Qed.

(** X4. When the name of the format has neither a dot nor a slash and the
    name of the cube is not made of dots only, [splitext] gives back from
    the converted path the root of the cube and the tag as extension, and
    the converted path of the converted path is the converted path
    itself. *)
Theorem converted_path_splits_back (cfg : Config) (p : string) :
  ~ In OsPath.extsep (list_ascii_of_string (FORMAT cfg)) ->
  ~ In OsPath.sep (list_ascii_of_string (FORMAT cfg)) ->
  has_name_char (basename p) = true ->
  OsPath.splitext (path_converted cfg p)
  = (fst (OsPath.splitext p), "." ++ tag cfg)
  /\ path_converted cfg (path_converted cfg p) = path_converted cfg p.
Proof.
  intros Hdot Hsep Hname.
  assert (Hsplit : OsPath.splitext (path_converted cfg p)
                   = (fst (OsPath.splitext p), "." ++ tag cfg)).
  { apply PathFacts.extension_has_no_name_char_or_root_has in Hname.
    set (root := fst (OsPath.splitext p)) in *.
    pose proof (PyStrFacts.rfind_lower OsPath.sep root) as Hl.
    pose proof (PathFacts.rfind_upper OsPath.sep root) as Hu.
    assert (Hs : PyStr.rfind OsPath.sep (root ++ "." ++ tag cfg)
                 = PyStr.rfind OsPath.sep root).
    { now rewrite PathFacts.rfind_app, (PathFacts.no_sep_in_tag cfg Hsep). }
    assert (Hd : PyStr.rfind OsPath.extsep (root ++ "." ++ tag cfg)
                 = Z.of_nat (String.length root)).
    { rewrite PathFacts.rfind_app.
      assert (Ht : PyStr.rfind OsPath.extsep ("." ++ tag cfg) = 0).
      { assert (Hq : PyStr.rfind OsPath.extsep (tag cfg) = -1).
        { apply PyStrFacts.rfind_none. unfold tag.
          destruct (QUANTIZE cfg); cbn; [|exact Hdot].
          intros [E|E]; [discriminate E|contradiction]. }
        cbn [append PyStr.rfind]. rewrite Hq. reflexivity. }
      rewrite Ht. cbn. lia. }
    rewrite PathFacts.path_converted_unfold. fold root.
    unfold OsPath.splitext. rewrite Hs, Hd.
    replace (PyStr.rfind OsPath.sep root <? Z.of_nat (String.length root))
      with true by (symmetry; apply Z.ltb_lt; lia).
    rewrite PathFacts.skip_leading_dots_spec
      by (try rewrite PyStrFacts.app_length; lia).
    rewrite PathFacts.drop_app_le by lia.
    rewrite PathFacts.take_app_le
      by (rewrite PathFacts.drop_length; lia).
    replace (Z.to_nat (Z.of_nat (String.length root)
                       - (PyStr.rfind OsPath.sep root + 1)))
      with (String.length (PyStr.drop (Z.to_nat (PyStr.rfind OsPath.sep root + 1)) root))
      by (rewrite PathFacts.drop_length; lia).
    rewrite PathFacts.take_all.
    unfold basename, PyStr.slice_from in Hname. rewrite Hname. cbn [andb].
    unfold PyStr.slice_to, PyStr.slice_from. rewrite Nat2Z.id.
    rewrite PathFacts.take_app_le, PathFacts.take_all by lia.
    rewrite PathFacts.drop_app_le, PathFacts.drop_all by lia.
    reflexivity. }
  split; [exact Hsplit|].
  rewrite (PathFacts.path_converted_unfold cfg (path_converted cfg p)), Hsplit.
  reflexivity.
Qed.

(** * More on the order of the run *)

Module SortedMore.
Import SortedFacts.

Lemma str_le_antisym (a b : string) : str_le a b -> str_le b a -> a = b.
Proof. apply String.leb_antisym. Qed.

Lemma str_le_refl (a : string) : str_le a a.
Proof. destruct (str_le_total a a); assumption. Qed.

(** Two sorted lists with the same elements are the same list. *)
Lemma sorted_unique (l1 l2 : list string) :
  StronglySorted str_le l1 -> StronglySorted str_le l2 ->
  Permutation l1 l2 -> l1 = l2.
Proof.
  revert l2; induction l1 as [|a l1 IH]; intros l2 H1 H2 HP.
  - now apply Permutation_nil in HP.
  - destruct l2 as [|b l2];
      [apply Permutation_sym, Permutation_nil in HP; discriminate|].
    apply StronglySorted_inv in H1 as [H1 Ha].
    apply StronglySorted_inv in H2 as [H2 Hb].
    rewrite Forall_forall in Ha, Hb.
    assert (Hab : a = b).
    { assert (Hin1 : In a (b :: l2))
        by (apply (Permutation_in _ HP); now left).
      assert (Hin2 : In b (a :: l1))
        by (apply (Permutation_in _ (Permutation_sym HP)); now left).
      destruct Hin1 as [E|Hin1]; [now symmetry|].
      destruct Hin2 as [E|Hin2]; [exact E|].
      apply str_le_antisym; auto. }
    subst b. f_equal. apply IH; trivial.
    now apply Permutation_cons_inv in HP.
Qed.

Lemma sorted_of_sorted (l : list string) :
  StronglySorted str_le l -> sorted l = l.
Proof.
  intros H. apply sorted_unique; trivial.
  - apply sorted_strongly.
  - apply Permutation_sym, sorted_perm.
Qed.

End SortedMore.

(** X5. The order of the run does not depend on the order in which the
    matches are listed: two lists with the same paths, in whatever order,
    are sorted to the same list; and sorting a second time changes
    nothing. *)
Theorem sorted_forgets_listing_order (l1 l2 : list string) :
  Permutation l1 l2 ->
  sorted l1 = sorted l2 /\ sorted (sorted l1) = sorted l1.
Proof.
  intros HP. split.
  - apply SortedMore.sorted_unique; try apply SortedFacts.sorted_strongly.
    rewrite <- (SortedFacts.sorted_perm l1), <- (SortedFacts.sorted_perm l2).
    exact HP.
  - apply SortedMore.sorted_of_sorted, SortedFacts.sorted_strongly.
Qed.

(** * The further theorems at work *)

Module MoreRuns.
Import Sample SampleFaults.

(** Two cubes of one directory that differ by their extension only. *)
Example collision_sgy_segy :
  path_converted quiet_config "/d/a.sgy" = path_converted quiet_config "/d/a.segy".
Proof. reflexivity. Qed.

(** A cube that is already in the target format. *)
Example conversion_onto_itself :
  path_converted quiet_config "/d/a.hdf5" = "/d/a.hdf5".
Proof. reflexivity. Qed.

(** A path that is a directory: the converted path is a hidden file in
    it, and converting that one again gives yet another path. *)
Example directory_as_cube :
  path_converted quiet_config "/d/" = "/d/.hdf5"
  /\ path_converted quiet_config "/d/.hdf5" = "/d/.hdf5.hdf5".
Proof. split; reflexivity. Qed.

End MoreRuns.

Lemma converted_path_same_directory_witness :
  ~ In OsPath.sep (list_ascii_of_string (FORMAT notebook_config))
  /\ directory (path_converted notebook_config "/data/CUBE_1/amplitudes_01.sgy")
     = "/data/CUBE_1/"
  /\ basename (path_converted notebook_config "/data/CUBE_1/amplitudes_01.sgy")
     = "amplitudes_01.qblosc".
Proof.
  assert (H : ~ In OsPath.sep (list_ascii_of_string (FORMAT notebook_config))).
  { cbn. intros [E|[E|[E|[E|[E|[]]]]]]; discriminate E. }
  split; [exact H|].
  pose proof (converted_path_same_directory
                notebook_config "/data/CUBE_1/amplitudes_01.sgy" H)
    as (Hdir & _ & Hname).
  split; [exact Hdir|exact Hname].
Defined.

Lemma converted_path_splits_back_witness :
  has_name_char (basename "/data/CUBE_1/amplitudes_01.sgy") = true
  /\ OsPath.splitext (path_converted notebook_config "/data/CUBE_1/amplitudes_01.sgy")
     = ("/data/CUBE_1/amplitudes_01", ".qblosc")
  /\ path_converted notebook_config "/data/CUBE_1/amplitudes_01.qblosc"
     = "/data/CUBE_1/amplitudes_01.qblosc".
Proof.
  split; [reflexivity|].
  assert (Hdot : ~ In OsPath.extsep (list_ascii_of_string (FORMAT notebook_config))).
  { cbn. intros [E|[E|[E|[E|[E|[]]]]]]; discriminate E. }
  assert (Hsep : ~ In OsPath.sep (list_ascii_of_string (FORMAT notebook_config))).
  { cbn. intros [E|[E|[E|[E|[E|[]]]]]]; discriminate E. }
  exact (converted_path_splits_back
           notebook_config "/data/CUBE_1/amplitudes_01.sgy" Hdot Hsep eq_refl).
Defined.

Lemma sorted_forgets_listing_order_witness :
  sorted ["/d/CUBE_2/a.sgy"; "/d/CUBE_1/a.sgy"]
  = sorted ["/d/CUBE_1/a.sgy"; "/d/CUBE_2/a.sgy"].
Proof.
  exact (proj1 (sorted_forgets_listing_order
                  ["/d/CUBE_2/a.sgy"; "/d/CUBE_1/a.sgy"]
                  ["/d/CUBE_1/a.sgy"; "/d/CUBE_2/a.sgy"]
                  (perm_swap _ _ _))).
Defined.

Lemma quiet_run_shows_notices_only_witness :
  SHOW Sample.quiet_config = false
  /\ exists r w' evs,
       convert_cubes Sample.library Sample.quiet_config
                     ["/d/a.sgy"; "/d/b.sgy"]
                     (Sample.start ["/d/a.sgy"; "/d/b.sgy"; "/d/b.hdf5"])
       = (r, {| world := w'; trace := [] ++ evs |})
       /\ Forall (fun ev => exists p,
                      In p ["/d/a.sgy"; "/d/b.sgy"]
                      /\ quiet_for Sample.quiet_config p ev) evs.
Proof.
  split; [reflexivity|].
  exact (quiet_run_shows_notices_only
           Sample.library Sample.quiet_config ["/d/a.sgy"; "/d/b.sgy"]
           (Sample.start ["/d/a.sgy"; "/d/b.sgy"; "/d/b.hdf5"]) eq_refl).
Defined.

Lemma recreate_always_constructs_witness :
  fs_exists Sample.library ["/d/a.sgy"; "/d/a.qblosc"]
            (path_converted notebook_config "/d/a.sgy") = true
  /\ exists r w' tail,
       loop_body Sample.library notebook_config "/d/a.sgy"
                 (Sample.start ["/d/a.sgy"; "/d/a.qblosc"])
       = (r, {| world := w';
                trace := [] ++ [EvExists "/d/a.sgy"; EvExists "/d/a.qblosc"]
                         ++ banner notebook_config "/d/a.sgy"
                         ++ construct_event Sample.library "/d/a.sgy" :: tail |}).
Proof.
  split; [reflexivity|].
  exact (recreate_always_constructs
           Sample.library notebook_config "/d/a.sgy"
           (Sample.start ["/d/a.sgy"; "/d/a.qblosc"]) eq_refl eq_refl eq_refl).
Defined.

Lemma failing_diagnostics_stop_before_conversion_witness :
  exists s3 : @state Sample.World string (list string),
    convert_cubes SampleFaults.headless_library SampleFaults.loud_config
                  ["/d/a.sgy"; "/d/b.sgy"] (Sample.start ["/d/a.sgy"; "/d/b.sgy"])
    = (Raise "no display", s3)
    /\ world s3 = ["/d/a.sgy.meta"; "/d/a.sgy"; "/d/b.sgy"]
    /\ conversions (trace s3) = [].
Proof.
  eexists. split; [|split].
  - exact (proj1 (failing_diagnostics_stop_before_conversion
                    SampleFaults.headless_library SampleFaults.loud_config
                    "/d/a.sgy" ["/d/b.sgy"] (Sample.start ["/d/a.sgy"; "/d/b.sgy"])
                    "/d/a.sgy" ["/d/a.sgy.meta"; "/d/a.sgy"; "/d/b.sgy"] tt
                    ["/d/a.sgy.meta"; "/d/a.sgy"; "/d/b.sgy"] "no display" _
                    eq_refl eq_refl eq_refl eq_refl eq_refl)).
  - reflexivity.
  - reflexivity.
Defined.

Lemma failing_print_after_conversion_witness :
  exists s3 : @state Sample.World string (list string),
    convert_cubes SampleFaults.segy_only_print_library SampleFaults.loud_config
                  ["/d/a.sgy"; "/d/b.sgy"] (Sample.start ["/d/a.sgy"; "/d/b.sgy"])
    = (Raise "not a SEG-Y",
       {| world := ["/d/a.hdf5"; "/d/a.sgy.meta"; "/d/a.sgy"; "/d/b.sgy"];
          trace := trace s3 ++ [EvConvert "/d/a.sgy" "hdf5" false;
                                EvGeometryPrint "/d/a.hdf5"] |}).
Proof.
  eexists.
  exact (failing_print_after_conversion
           SampleFaults.segy_only_print_library SampleFaults.loud_config
           "/d/a.sgy" ["/d/b.sgy"] (Sample.start ["/d/a.sgy"; "/d/b.sgy"])
           "/d/a.sgy" ["/d/a.sgy.meta"; "/d/a.sgy"; "/d/b.sgy"] tt
           ["/d/a.sgy.meta"; "/d/a.sgy"; "/d/b.sgy"] _
           "/d/a.hdf5" ["/d/a.hdf5"; "/d/a.sgy.meta"; "/d/a.sgy"; "/d/b.sgy"]
           "not a SEG-Y" ["/d/a.hdf5"; "/d/a.sgy.meta"; "/d/a.sgy"; "/d/b.sgy"]
           eq_refl eq_refl eq_refl eq_refl eq_refl eq_refl eq_refl).
Defined.

Lemma notebook_dry_run_is_harmless_witness :
  DRY_RUN Sample.dry_config = true
  /\ exists evs,
       notebook Sample.library Sample.dry_config "/d/*.sgy"
                (Sample.start ["/d/b.sgy"; "/d/a.sgy"; "/d/a.hdf5"])
       = (Ok tt, {| world := ["/d/b.sgy"; "/d/a.sgy"; "/d/a.hdf5"];
                    trace := [] ++ evs |})
       /\ Forall (fun ev => is_library_call ev = false) evs.
Proof.
  split; [reflexivity|].
  destruct (notebook_dry_run_is_harmless
              Sample.library Sample.dry_config "/d/*.sgy"
              (Sample.start ["/d/b.sgy"; "/d/a.sgy"; "/d/a.hdf5"]) eq_refl)
    as (evs & Hrun & Hlib & _).
  exists evs. split; [exact Hrun|exact Hlib].
Defined.

Lemma normal_end_means_converted_witness :
  gates_pass Sample.library Sample.quiet_config ["/d/a.sgy"] "/d/a.sgy" = true
  /\ exists g w1 w g' w',
       construct_call Sample.library "/d/a.sgy" ["/d/a.sgy"] = (Ok g, w1)
       /\ convert Sample.library g "hdf5" false w = (Ok g', w')
       /\ In (EvConvert g "hdf5" false)
             (trace (snd (loop_body Sample.library Sample.quiet_config "/d/a.sgy"
                                    (Sample.start ["/d/a.sgy"]))))
       /\ (SHOW Sample.quiet_config = false ->
           world (snd (loop_body Sample.library Sample.quiet_config "/d/a.sgy"
                                 (Sample.start ["/d/a.sgy"]))) = w').
Proof.
  split; [reflexivity|].
  exact (normal_end_means_converted
           Sample.library Sample.quiet_config "/d/a.sgy"
           (Sample.start ["/d/a.sgy"]) _ eq_refl eq_refl).
Defined.

Lemma normal_run_checks_every_cube_witness :
  exists evs,
    trace (snd (convert_cubes Sample.library Sample.quiet_config
                              ["/d/a.sgy"; "/d/b.sgy"]
                              (Sample.start ["/d/a.sgy"])))
    = ([] ++ evs)%list
    /\ Forall (fun p => In (EvExists p) evs) ["/d/a.sgy"; "/d/b.sgy"].
Proof.
  exact (normal_run_checks_every_cube
           Sample.library Sample.quiet_config ["/d/a.sgy"; "/d/b.sgy"]
           (Sample.start ["/d/a.sgy"]) _ eq_refl).
Defined.
